(** * Motor control panel: a shallow embedding of [src/motor-control.js]

    The file models the [MotorController] class of the browser control
    panel: its fields, the page elements it drives, and every method, each
    as a function on an explicit state.  What the browser and the Paho MQTT
    library supply (the clock, [JSON.parse], [URL], the [Paho.Client]
    constructor) is an interface, [Platform], over which every definition
    and theorem is generic.

    Conventions.
    - A JavaScript string is the [string] of its UTF-8 bytes; whitespace
      is ECMAScript's WhiteSpace and LineTerminator sets, each code point
      by its UTF-8 encoding.
    - JavaScript numbers that reach the controller are integers, [NaN] or
      an infinity (see [JsNumber.t]); integers are [Z], and [parseInt]
      rounds to the nearest double as JavaScript does.
    - An exception thrown inside [connect]'s [try] block is the left
      injection of a sum, carrying [error.message].
    - The controller is modelled once [initialize] has resolved the page
      elements, i.e. every [document.getElementById] of [getDOMElements]
      found its element.
    - A Paho client is a handle; the calls made on it are recorded as
      effects, and its callbacks are functions on the state that the
      environment may invoke at any time.  What Paho does internally with
      a call is outside the model.
    - [console.log] and the scroll position of the log pane are left out:
      nothing reads them back. *)

From Stdlib Require Import ZArith List String Ascii Bool Lia.
From Stdlib Require Import DecimalString.
Import ListNotations.
Open Scope string_scope.
Open Scope Z_scope.

(** ** JavaScript strings *)

Module JsString.

(** UTF-8 bytes of a code point below 2^16. *)
Definition utf8 (n : N) : string :=
  (if n <? 128 then String (ascii_of_N n) EmptyString
   else if n <? 2048 then
     String (ascii_of_N (192 + n / 64))
       (String (ascii_of_N (128 + n mod 64)) EmptyString)
   else
     String (ascii_of_N (224 + n / 4096))
       (String (ascii_of_N (128 + n / 64 mod 64))
          (String (ascii_of_N (128 + n mod 64)) EmptyString)))%N.

(** The code points of ECMAScript's WhiteSpace and LineTerminator: TAB,
    LF, VT, FF, CR, SPACE, NO-BREAK SPACE, OGHAM SPACE MARK, EN QUAD to
    HAIR SPACE, LINE SEPARATOR, PARAGRAPH SEPARATOR, NARROW NO-BREAK
    SPACE, MEDIUM MATHEMATICAL SPACE, IDEOGRAPHIC SPACE, ZERO WIDTH
    NO-BREAK SPACE. *)
Definition space_code_points : list N :=
  [9; 10; 11; 12; 13; 32; 160; 5760;
   8192; 8193; 8194; 8195; 8196; 8197; 8198; 8199; 8200; 8201; 8202;
   8232; 8233; 8239; 8287; 12288; 65279]%N.

(** Their UTF-8 encodings. *)
Definition space_codes : list string :=
  Eval vm_compute in map utf8 space_code_points.

(** [w] is exactly one whitespace code point. *)
Definition is_space_code (w : string) : bool :=
  existsb (String.eqb w) space_codes.

(** [String.prototype.trimStart]: whitespace code points, of one, two or
    three bytes, are dropped from the front. *)
Fixpoint trimStart (s : string) : string :=
  match s with
  | EmptyString => EmptyString
  | String a r =>
      if is_space_code (String a EmptyString) then trimStart r
      else
        match r with
        | String b r1 =>
            if is_space_code (String a (String b EmptyString)) then trimStart r1
            else
              match r1 with
              | String c r2 =>
                  if is_space_code (String a (String b (String c EmptyString)))
                  then trimStart r2
                  else s
              | EmptyString => s
              end
        | EmptyString => s
        end
  end.

(** [String.prototype.trimEnd]: going from the right, a code point goes
    when it is whitespace and everything after it has gone. *)
Fixpoint trimEnd (s : string) : string :=
  match s with
  | EmptyString => EmptyString
  | String c r =>
      let r' := trimEnd r in
      if is_space_code (String c r') then EmptyString else String c r'
  end.

(** [String.prototype.trim]. *)
Definition trim (s : string) : string := trimEnd (trimStart s).

(** [String.prototype.startsWith]. *)
Definition startsWith (s p : string) : bool := String.prefix p s.

(** Truthiness of a string: only the empty string is falsy. *)
Definition truthy (s : string) : bool :=
  match s with EmptyString => false | _ => true end.

(** [s] occurs inside [t]. *)
Definition includes (t s : string) : Prop :=
  exists pre post, t = pre ++ s ++ post.

Definition upper_char (c : ascii) : ascii :=
  let n := nat_of_ascii c in
  if (97 <=? n)%nat && (n <=? 122)%nat then ascii_of_nat (n - 32) else c.

(** [String.prototype.toUpperCase] on ASCII letters. *)
Fixpoint toUpperCase (s : string) : string :=
  match s with
  | EmptyString => EmptyString
  | String c r => String (upper_char c) (toUpperCase r)
  end.

End JsString.

(** ** JavaScript numbers

    The numbers the controller handles come from [parseInt] and from
    [Math.min]/[Math.max] against integer constants: they are integers,
    [NaN], or an infinity. *)

Module JsNumber.

Inductive t : Type :=
| NaN
| Int (n : Z)
| Infinity (negative : bool).

(** [Number.prototype.toString] (also what a template literal and
    [textContent] produce): the decimal digits, with a leading minus
    sign for negatives.  JavaScript switches to exponent notation from
    10^21 on, far outside what the controller stores. *)
Definition toString (x : t) : string :=
  match x with
  | NaN => "NaN"
  | Int n => NilZero.string_of_int (Z.to_int n)
  | Infinity false => "Infinity"
  | Infinity true => "-Infinity"
  end.

(** [Math.min] and [Math.max] on two arguments: [NaN] if either is. *)
Definition Math_min (a b : t) : t :=
  match a, b with
  | Int x, Int y => Int (Z.min x y)
  | NaN, _ | _, NaN => NaN
  | Infinity true, _ | _, Infinity true => Infinity true
  | Infinity false, x | x, Infinity false => x
  end.

Definition Math_max (a b : t) : t :=
  match a, b with
  | Int x, Int y => Int (Z.max x y)
  | NaN, _ | _, NaN => NaN
  | Infinity false, _ | _, Infinity false => Infinity false
  | Infinity true, x | x, Infinity true => x
  end.

(** Value of a character as a digit (any radix up to 36). *)
Definition digit_value (c : ascii) : option Z :=
  let n := Z.of_nat (nat_of_ascii c) in
  if (48 <=? n) && (n <=? 57) then Some (n - 48)
  else if (97 <=? n) && (n <=? 122) then Some (n - 87)
  else if (65 <=? n) && (n <=? 90) then Some (n - 55)
  else None.

(** Longest prefix of digits below [radix], accumulated left to right;
    [None] when the first character is not such a digit. *)
Fixpoint digits (radix : Z) (acc : option Z) (s : string) : option Z :=
  match s with
  | EmptyString => acc
  | String c r =>
      match digit_value c with
      | Some d =>
          if d <? radix
          then digits radix
                 (Some (radix * match acc with Some a => a | None => 0 end + d)) r
          else acc
      | None => acc
      end
  end.

(** The double nearest to the natural number [m], ties to the even
    significand: exact below 2^53, an infinity from 2^1024 on. *)
Definition nearest_double (negative : bool) (m : Z) : t :=
  let signed (v : Z) := Int (if negative then - v else v) in
  if m <? 2 ^ 53 then signed m
  else
    let k := Z.log2 m - 52 in
    let q := m / 2 ^ k in
    let r := m mod 2 ^ k in
    let half := 2 ^ (k - 1) in
    let q := if (half <? r) || ((r =? half) && Z.odd q) then q + 1 else q in
    if 2 ^ 1024 <=? q * 2 ^ k then Infinity negative else signed (q * 2 ^ k).

(** [parseInt(s)] with no radix argument: leading whitespace, an optional
    sign, an optional [0x]/[0X] prefix selecting base 16, then digits; the
    integer read is rounded to a double. *)
Definition parseInt (s : string) : t :=
  let s := JsString.trimStart s in
  let '(negative, s) :=
    match s with
    | String "-" r => (true, r)
    | String "+" r => (false, r)
    | _ => (false, s)
    end in
  let '(radix, s) :=
    match s with
    | String "0" (String "x" r) => (16, r)
    | String "0" (String "X" r) => (16, r)
    | _ => (10, s)
    end in
  match digits radix None s with
  | Some n => nearest_double negative n
  | None => NaN
  end.

(** [a || b]: [NaN] and 0 are falsy. *)
Definition or_else (a b : t) : t :=
  match a with
  | NaN | Int 0 => b
  | _ => a
  end.

End JsNumber.

(** ** JSON values and [JSON.stringify] *)

#[warnings="-register-all"]
Inductive JSON : Type :=
| JNull
| JBool (b : bool)
| JNum (x : JsNumber.t)
| JStr (s : string)
| JArr (items : list JSON)
| JObj (members : list (string * JSON)).

Module JsJSON.

Definition hex_digit (n : nat) : ascii :=
  if (n <? 10)%nat then ascii_of_nat (48 + n) else ascii_of_nat (87 + n).

Definition dquote_char : ascii := ascii_of_nat 34.

(** QuoteJSONString on one character. *)
Definition quote_char (c : ascii) : string :=
  let n := nat_of_ascii c in
  match n with
  | 8%nat => "\b"
  | 9%nat => "\t"
  | 10%nat => "\n"
  | 12%nat => "\f"
  | 13%nat => "\r"
  | 34%nat => String "\" (String dquote_char EmptyString)
  | 92%nat => "\\"
  | _ =>
      if (n <? 32)%nat
      then "\u00" ++ String (hex_digit (n / 16)) (String (hex_digit (n mod 16)) EmptyString)
      else String c EmptyString
  end.

Fixpoint quote_body (s : string) : string :=
  match s with
  | EmptyString => EmptyString
  | String c r => quote_char c ++ quote_body r
  end.

Definition dquote : string := String dquote_char EmptyString.

Definition quote (s : string) : string := dquote ++ quote_body s ++ dquote.

Fixpoint join (sep : string) (l : list string) : string :=
  match l with
  | [] => EmptyString
  | [x] => x
  | x :: r => x ++ sep ++ join sep r
  end.

(** [JSON.stringify(v)] with no replacer and no indentation. *)
Fixpoint stringify (v : JSON) : string :=
  match v with
  | JNull => "null"
  | JBool true => "true"
  | JBool false => "false"
  | JNum JsNumber.NaN => "null"
  | JNum (JsNumber.Infinity _) => "null"
  | JNum x => JsNumber.toString x
  | JStr s => quote s
  | JArr items => "[" ++ join "," (map stringify items) ++ "]"
  | JObj members =>
      "{" ++ join "," (map (fun kv => quote (fst kv) ++ ":" ++ stringify (snd kv)) members) ++ "}"
  end.

End JsJSON.

(** ** The platform: what the browser and Paho supply *)

(** The two properties of a [URL] object that [connect] reads. *)
Record URL : Type := { hostname : string; port : string }.

(** A [Paho.Client] handle as built by [new Paho.Client(host, port, clientId)]. *)
Record Client : Type := {
  client_host : string;
  client_port : JsNumber.t;
  client_id : string
}.

Class Platform : Type := {
  (** [Date] objects; [new_Date k] is the value of the [k]-th evaluation
      of [new Date()] since the page loaded. *)
  Date : Type;
  new_Date : nat -> Date;
  toLocaleTimeString : Date -> string;
  toISOString : Date -> string;
  (** [JSON.parse]: [None] when it throws a [SyntaxError]. *)
  Parsed : Type;
  JSON_parse : string -> option Parsed;
  (** The text a template literal produces for [data.message]; [None] when
      reading the property throws (the parsed value is [null]). *)
  message_text : Parsed -> option string;
  (** [new URL(s)]: the left injection is the message of the [TypeError]
      thrown for a string that is not a URL. *)
  new_URL : string -> string + URL;
  (** [new Paho.Client(host, port, clientId)]: [Some m] when the constructor
      throws an error with message [m]. *)
  Paho_Client_throws : string -> JsNumber.t -> string -> option string;
  (** [client.connect({..., useSSL})]: [Some m] when the call itself throws
      (for instance the socket cannot be created). *)
  Paho_connect_throws : Client -> bool -> option string
}.

(** ** State *)

Record MotorState : Type := {
  isOn : bool;
  speed : JsNumber.t;
  direction : string
}.

(** The page elements of [getDOMElements], each reduced to the properties
    the controller reads or writes.  A [classList] is a list of class names
    without repetition; [statusLog] is the text of the [.log-entry] children
    of the log pane in document order, the oldest first. *)
Record Elements : Type := {
  statusIndicator_classList : list string;
  statusText_textContent : string;
  connectButton_textContent : string;
  connectButton_background : string;
  brokerUrl_value : string;
  clientId_value : string;
  speedSlider_value : string;
  speedValue_textContent : string;
  powerButton_classList : list string;
  powerButton_text : string;
  powerStatus_textContent : string;
  directionButton_classList : list string;
  directionButton_text : string;
  directionButton_icon : string;
  directionStatus_textContent : string;
  statusLog : list string
}.

(** What the controller does to the world outside its own fields and page:
    the calls it makes on a Paho client, and each status it hands to
    [updateConnectionStatus]. *)
Inductive Effect : Type :=
| Status (status : string)
| ClientConnect (c : Client) (useSSL : bool) (timeout keepAliveInterval : Z)
    (cleanSession : bool)
| ClientDisconnect (c : Client)
| ClientSubscribe (c : Client) (topic : string)
| ClientPublish (c : Client) (topic payload : string) (qos : Z) (retained : bool).

(** The controller's fields ([client], [isConnected], [motorState],
    [elements]) together with the environment it runs in: whether the
    global [Paho] is defined, how many [Date] objects have been created,
    and the effects performed so far, the latest last. *)
Record State : Type := {
  client : option Client;
  isConnected : bool;
  motorState : MotorState;
  elements : Elements;
  Paho_defined : bool;
  dates : nat;
  effects : list Effect
}.

Definition set_client (c : option Client) (s : State) : State :=
  {| client := c; isConnected := isConnected s; motorState := motorState s;
     elements := elements s; Paho_defined := Paho_defined s; dates := dates s;
     effects := effects s |}.

Definition set_isConnected (b : bool) (s : State) : State :=
  {| client := client s; isConnected := b; motorState := motorState s;
     elements := elements s; Paho_defined := Paho_defined s; dates := dates s;
     effects := effects s |}.

Definition set_motorState (m : MotorState) (s : State) : State :=
  {| client := client s; isConnected := isConnected s; motorState := m;
     elements := elements s; Paho_defined := Paho_defined s; dates := dates s;
     effects := effects s |}.

Definition set_elements (e : Elements) (s : State) : State :=
  {| client := client s; isConnected := isConnected s; motorState := motorState s;
     elements := e; Paho_defined := Paho_defined s; dates := dates s;
     effects := effects s |}.

(** One more [Date] has been created. *)
Definition tick (s : State) : State :=
  {| client := client s; isConnected := isConnected s; motorState := motorState s;
     elements := elements s; Paho_defined := Paho_defined s; dates := S (dates s);
     effects := effects s |}.

Definition emit (e : Effect) (s : State) : State :=
  {| client := client s; isConnected := isConnected s; motorState := motorState s;
     elements := elements s; Paho_defined := Paho_defined s; dates := dates s;
     effects := (effects s ++ [e])%list |}.

(** [DOMTokenList.add] and [DOMTokenList.remove] with one token. *)
Module ClassList.

Definition contains (l : list string) (c : string) : bool :=
  existsb (String.eqb c) l.

Definition remove (c : string) (l : list string) : list string :=
  filter (fun x => negb (String.eqb c x)) l.

Definition add (c : string) (l : list string) : list string :=
  if contains l c then l else (l ++ [c])%list.

End ClassList.

(** The three fixed topics, in the order [Object.values] lists them. *)
Record Topics : Type := { motor : string; status : string; log : string }.

Definition topics : Topics :=
  {| motor := "akuri/motor/control";
     status := "akuri/motor/status";
     log := "akuri/motor/log" |}.

Definition Object_values (t : Topics) : list string := [motor t; status t; log t].

(** ** Exceptions inside [try]

    A computation that may throw: it returns the state it reached and
    either the message of the error thrown or its result. *)

Definition Try (A : Type) : Type := State -> (string + A) * State.

Definition ret {A : Type} (a : A) : Try A := fun s => (inr a, s).

Definition throw {A : Type} (message : string) : Try A := fun s => (inl message, s).

Definition bind {A B : Type} (m : Try A) (k : A -> Try B) : Try B :=
  fun s =>
    match m s with
    | (inl e, s') => (inl e, s')
    | (inr a, s') => k a s'
    end.

(** A statement that cannot throw. *)
Definition run (f : State -> State) : Try unit := fun s => (inr tt, f s).

Declare Scope try_scope.
Delimit Scope try_scope with try.
Notation "x <- m ;; k" := (bind m (fun x => k))
  (at level 61, m at next level, right associativity) : try_scope.
Notation "m ;; k" := (bind m (fun _ => k))
  (at level 61, right associativity) : try_scope.

(** ** The methods of [MotorController] *)

Section Controller.

Context {P : Platform}.

Import JsString.

(** The state [new MotorController()] starts from, on a page whose
    elements are [page]. *)
Definition constructor (page : Elements) (paho : bool) : State :=
  {| client := None;
     isConnected := false;
     motorState := {| isOn := false; speed := JsNumber.Int 0; direction := "forward" |};
     elements := page;
     Paho_defined := paho;
     dates := 0%nat;
     effects := [] |}.

Definition set_statusLog (l : list string) (s : State) : State :=
  let e := elements s in
  set_elements
    {| statusIndicator_classList := statusIndicator_classList e;
       statusText_textContent := statusText_textContent e;
       connectButton_textContent := connectButton_textContent e;
       connectButton_background := connectButton_background e;
       brokerUrl_value := brokerUrl_value e;
       clientId_value := clientId_value e;
       speedSlider_value := speedSlider_value e;
       speedValue_textContent := speedValue_textContent e;
       powerButton_classList := powerButton_classList e;
       powerButton_text := powerButton_text e;
       powerStatus_textContent := powerStatus_textContent e;
       directionButton_classList := directionButton_classList e;
       directionButton_text := directionButton_text e;
       directionButton_icon := directionButton_icon e;
       directionStatus_textContent := directionStatus_textContent e;
       statusLog := l |} s.

Definition set_statusIndicator (classList : list string) (text : string)
    (s : State) : State :=
  let e := elements s in
  set_elements
    {| statusIndicator_classList := classList;
       statusText_textContent := text;
       connectButton_textContent := connectButton_textContent e;
       connectButton_background := connectButton_background e;
       brokerUrl_value := brokerUrl_value e;
       clientId_value := clientId_value e;
       speedSlider_value := speedSlider_value e;
       speedValue_textContent := speedValue_textContent e;
       powerButton_classList := powerButton_classList e;
       powerButton_text := powerButton_text e;
       powerStatus_textContent := powerStatus_textContent e;
       directionButton_classList := directionButton_classList e;
       directionButton_text := directionButton_text e;
       directionButton_icon := directionButton_icon e;
       directionStatus_textContent := directionStatus_textContent e;
       statusLog := statusLog e |} s.

(** [addLogEntry(message)]: append the stamped line, then drop the first
    entry when more than 50 are present. *)
Definition addLogEntry (message : string) (s : State) : State :=
  let timestamp := toLocaleTimeString (new_Date (dates s)) in
  let s := tick s in
  let logEntry := "[" ++ timestamp ++ "] " ++ message in
  let entries := (statusLog (elements s) ++ [logEntry])%list in
  if (50 <? List.length entries)%nat
  then set_statusLog (tl entries) s
  else set_statusLog entries s.

Definition clearLog (s : State) : State := set_statusLog ["Log cleared"] s.

(** [updateConnectionStatus(status)]. *)
Definition updateConnectionStatus (status : string) (s : State) : State :=
  let classList := statusIndicator_classList (elements s) in
  let s := emit (Status status) s in
  if (status =? "connected")%string then
    set_statusIndicator (ClassList.add "connected" classList) "Connected" s
  else if (status =? "connecting")%string then
    set_statusIndicator (ClassList.remove "connected" classList) "Connecting..." s
  else if (status =? "error")%string then
    set_statusIndicator (ClassList.remove "connected" classList) "Connection Error" s
  else
    set_statusIndicator (ClassList.remove "connected" classList) "Disconnected" s.

(** [updateUI()]: the speed display, the power and direction buttons and
    the connect button are rewritten from the fields. *)
Definition updateUI (s : State) : State :=
  let e := elements s in
  let m := motorState s in
  let forward := (direction m =? "forward")%string in
  set_elements
    {| statusIndicator_classList := statusIndicator_classList e;
       statusText_textContent := statusText_textContent e;
       connectButton_textContent :=
         if isConnected s then "Disconnect" else "Connect to MQTT";
       connectButton_background :=
         if isConnected s then "linear-gradient(135deg, #e74c3c, #c0392b)"
         else "linear-gradient(135deg, #3498db, #2980b9)";
       brokerUrl_value := brokerUrl_value e;
       clientId_value := clientId_value e;
       speedSlider_value := JsNumber.toString (speed m);
       speedValue_textContent := JsNumber.toString (speed m);
       powerButton_classList :=
         if isOn m
         then ClassList.add "on" (ClassList.remove "off" (powerButton_classList e))
         else ClassList.add "off" (ClassList.remove "on" (powerButton_classList e));
       powerButton_text := if isOn m then "Turn Off" else "Turn On";
       powerStatus_textContent := if isOn m then "Motor: ON" else "Motor: OFF";
       directionButton_classList :=
         if forward
         then ClassList.add "forward" (ClassList.remove "reverse" (directionButton_classList e))
         else ClassList.add "reverse" (ClassList.remove "forward" (directionButton_classList e));
       directionButton_text := if forward then "Forward" else "Reverse";
       directionButton_icon := if forward then "▶️" else "◀️";
       directionStatus_textContent :=
         if forward then "Direction: FORWARD" else "Direction: REVERSE";
       statusLog := statusLog e |} s.

(** The object literal handed to [JSON.stringify] in [publishMotorState]. *)
Definition motor_message (m : MotorState) (timestamp : string) : JSON :=
  JObj [("isOn", JBool (isOn m));
        ("speed", JNum (speed m));
        ("direction", JStr (direction m));
        ("timestamp", JStr timestamp)].

(** [publishMotorState()]. *)
Definition publishMotorState (s : State) : State :=
  match client s with
  | None => s
  | Some c =>
      if negb (isConnected s) then s
      else
        let message :=
          JsJSON.stringify
            (motor_message (motorState s) (toISOString (new_Date (dates s)))) in
        emit (ClientPublish c (motor topics) message 0 false) (tick s)
  end.

(** [subscribeToTopics()]. *)
Definition subscribeToTopics (s : State) : State :=
  match client s with
  | None => s
  | Some c =>
      if negb (isConnected s) then s
      else fold_left (fun s topic => emit (ClientSubscribe c topic) s)
             (Object_values topics) s
  end.

(** The callbacks of one [subscribe] call. *)
Definition subscribe_onSuccess (topic : string) (s : State) : State :=
  addLogEntry ("Subscribed to topic: " ++ topic) s.

Definition subscribe_onFailure (topic errorMessage : string) (s : State) : State :=
  addLogEntry ("Failed to subscribe to " ++ topic ++ ": " ++ errorMessage) s.

(** [handleIncomingMessage(topic, message)].  Inside the [try], reading
    [data.message] can throw; the [catch] then logs the raw message, as
    it does when [JSON.parse] throws. *)
Definition handleIncomingMessage (topic message : string) (s : State) : State :=
  let raw := addLogEntry ("Received on " ++ topic ++ ": " ++ message) in
  match JSON_parse message with
  | None => raw s
  | Some data =>
      if (topic =? status topics)%string then
        match message_text data with
        | Some text => addLogEntry ("Status update: " ++ text) s
        | None => raw s
        end
      else if (topic =? log topics)%string then
        match message_text data with
        | Some text => addLogEntry ("Motor log: " ++ text) s
        | None => raw s
        end
      else raw s
  end.

(** [setSpeed(speed)]. *)
Definition setSpeed (n : JsNumber.t) (s : State) : State :=
  let m := motorState s in
  let s :=
    set_motorState
      {| isOn := isOn m;
         speed := JsNumber.Math_max (JsNumber.Int 0)
                    (JsNumber.Math_min (JsNumber.Int 100) n);
         direction := direction m |} s in
  let s := updateUI s in
  let s := if isConnected s then publishMotorState s else s in
  addLogEntry ("Speed set to " ++ JsNumber.toString (speed (motorState s)) ++ "%") s.

(** [toggleMotor()]. *)
Definition toggleMotor (s : State) : State :=
  let m := motorState s in
  let s :=
    set_motorState
      {| isOn := negb (isOn m); speed := speed m; direction := direction m |} s in
  let s := updateUI s in
  let s := if isConnected s then publishMotorState s else s in
  let status := if isOn (motorState s) then "ON" else "OFF" in
  addLogEntry ("Motor turned " ++ status) s.

(** [toggleDirection()]. *)
Definition toggleDirection (s : State) : State :=
  let m := motorState s in
  let s :=
    set_motorState
      {| isOn := isOn m; speed := speed m;
         direction := if (direction m =? "forward")%string then "reverse" else "forward" |} s in
  let s := updateUI s in
  let s := if isConnected s then publishMotorState s else s in
  let direction := toUpperCase (direction (motorState s)) in
  addLogEntry ("Direction changed to " ++ direction) s.

(** *** [connect] *)

Local Open Scope try_scope.

(** [new URL(s)] inside the [try]. *)
Definition URL_of (s : string) : Try URL :=
  match new_URL s with
  | inl message => throw message
  | inr url => ret url
  end.

(** The scheme dispatch of [connect]: host, port and TLS flag. *)
Definition parse_brokerUrl (brokerUrl : string)
    : Try (string * JsNumber.t * bool) :=
  if startsWith brokerUrl "ws://" then
    url <- URL_of brokerUrl ;;
    ret (hostname url,
         JsNumber.or_else (JsNumber.parseInt (port url)) (JsNumber.Int 8000),
         false)
  else if startsWith brokerUrl "wss://" then
    url <- URL_of brokerUrl ;;
    ret (hostname url,
         JsNumber.or_else (JsNumber.parseInt (port url)) (JsNumber.Int 8884),
         true)
  else if startsWith brokerUrl "mqtt://" then
    url <- URL_of brokerUrl ;;
    ret (hostname url,
         JsNumber.or_else (JsNumber.parseInt (port url)) (JsNumber.Int 1883),
         false)
  else throw "Unsupported protocol. Use ws://, wss://, or mqtt://".

(** [new Paho.Client(host, port, clientId)] inside the [try]. *)
Definition Paho_Client (host : string) (port : JsNumber.t) (clientId : string)
    : Try Client :=
  match Paho_Client_throws host port clientId with
  | Some message => throw message
  | None => ret {| client_host := host; client_port := port; client_id := clientId |}
  end.

(** [this.client.connect({onSuccess, onFailure, useSSL, timeout: 10,
    keepAliveInterval: 60, cleanSession: true})]. *)
Definition client_connect (c : Client) (useSSL : bool) : Try unit :=
  match Paho_connect_throws c useSSL with
  | Some message => throw message
  | None => run (emit (ClientConnect c useSSL 10 60 true))
  end.

(** The body of the [try] block. *)
Definition connect_try (brokerUrl clientId : string) : Try unit :=
  (fun s =>
     if Paho_defined s then ret tt s
     else throw "Paho MQTT library not loaded" s) ;;
  run (addLogEntry ("Connecting to MQTT broker: " ++ brokerUrl)) ;;
  run (updateConnectionStatus "connecting") ;;
  parsed <- parse_brokerUrl brokerUrl ;;
  let '(host, port, useSSL) := parsed in
  c <- Paho_Client host port clientId ;;
  run (set_client (Some c)) ;;
  client_connect c useSSL.

Local Close Scope try_scope.

(** [connect()], up to the point where it returns; the session's answer
    arrives later through [connect_onSuccess] or [connect_onFailure]. *)
Definition connect (s : State) : State :=
  let brokerUrl := trim (brokerUrl_value (elements s)) in
  let clientId := trim (clientId_value (elements s)) in
  if negb (truthy brokerUrl) then
    addLogEntry "Error: Please enter a broker URL" s
  else if negb (truthy clientId) then
    addLogEntry "Error: Please enter a client ID" s
  else
    match connect_try brokerUrl clientId s with
    | (inr _, s) => s
    | (inl message, s) =>
        updateConnectionStatus "error"
          (addLogEntry ("Connection failed: " ++ message) s)
    end.

(** The [onSuccess] callback of [client.connect]. *)
Definition connect_onSuccess (s : State) : State :=
  let s := set_isConnected true s in
  let s := updateConnectionStatus "connected" s in
  let s := addLogEntry "Successfully connected to MQTT broker" s in
  let s := subscribeToTopics s in
  publishMotorState s.

(** The [onFailure] callback of [client.connect]. *)
Definition connect_onFailure (errorMessage : string) (s : State) : State :=
  let s := addLogEntry ("Connection failed: " ++ errorMessage) s in
  updateConnectionStatus "error" s.

(** [client.onConnectionLost]. *)
Definition onConnectionLost (errorMessage : string) (s : State) : State :=
  let s := set_isConnected false s in
  let s := updateConnectionStatus "disconnected" s in
  addLogEntry ("Connection lost: " ++ errorMessage) s.

(** [client.onMessageArrived]. *)
Definition onMessageArrived (destinationName payloadString : string)
    (s : State) : State :=
  handleIncomingMessage destinationName payloadString s.

(** [disconnect()]. *)
Definition disconnect (s : State) : State :=
  let s :=
    match client s with
    | Some c =>
        if isConnected s
        then set_client None (emit (ClientDisconnect c) s)
        else s
    | None => s
    end in
  let s := set_isConnected false s in
  let s := updateConnectionStatus "disconnected" s in
  addLogEntry "Disconnected from MQTT broker" s.

(** [initialize()]: the elements are already resolved and the listeners
    are [dispatch] below. *)
Definition initialize (s : State) : State :=
  let s := updateUI s in
  addLogEntry "Motor Control Panel initialized" s.

(** *** Events

    What can happen to an initialized controller: the listeners of
    [setupEventListeners], the user editing the two text fields, and the
    callbacks handed to Paho. *)
Inductive Event : Type :=
| Click_connectButton
| Input_speedSlider (value : string)
| Click_powerButton
| Click_directionButton
| Click_clearLogButton
| Keypress_brokerUrl (key : string)
| Keypress_clientId (key : string)
| Edit_brokerUrl (value : string)
| Edit_clientId (value : string)
| Connect_succeeded
| Connect_failed (errorMessage : string)
| Connection_lost (errorMessage : string)
| Message_arrived (destinationName payloadString : string)
| Subscribe_succeeded (topic : string)
| Subscribe_failed (topic errorMessage : string).

Definition set_brokerUrl (value : string) (s : State) : State :=
  let e := elements s in
  set_elements
    {| statusIndicator_classList := statusIndicator_classList e;
       statusText_textContent := statusText_textContent e;
       connectButton_textContent := connectButton_textContent e;
       connectButton_background := connectButton_background e;
       brokerUrl_value := value;
       clientId_value := clientId_value e;
       speedSlider_value := speedSlider_value e;
       speedValue_textContent := speedValue_textContent e;
       powerButton_classList := powerButton_classList e;
       powerButton_text := powerButton_text e;
       powerStatus_textContent := powerStatus_textContent e;
       directionButton_classList := directionButton_classList e;
       directionButton_text := directionButton_text e;
       directionButton_icon := directionButton_icon e;
       directionStatus_textContent := directionStatus_textContent e;
       statusLog := statusLog e |} s.

Definition set_clientId (value : string) (s : State) : State :=
  let e := elements s in
  set_elements
    {| statusIndicator_classList := statusIndicator_classList e;
       statusText_textContent := statusText_textContent e;
       connectButton_textContent := connectButton_textContent e;
       connectButton_background := connectButton_background e;
       brokerUrl_value := brokerUrl_value e;
       clientId_value := value;
       speedSlider_value := speedSlider_value e;
       speedValue_textContent := speedValue_textContent e;
       powerButton_classList := powerButton_classList e;
       powerButton_text := powerButton_text e;
       powerStatus_textContent := powerStatus_textContent e;
       directionButton_classList := directionButton_classList e;
       directionButton_text := directionButton_text e;
       directionButton_icon := directionButton_icon e;
       directionStatus_textContent := directionStatus_textContent e;
       statusLog := statusLog e |} s.

Definition dispatch (ev : Event) (s : State) : State :=
  match ev with
  | Click_connectButton => if isConnected s then disconnect s else connect s
  | Input_speedSlider value => setSpeed (JsNumber.parseInt value) s
  | Click_powerButton => toggleMotor s
  | Click_directionButton => toggleDirection s
  | Click_clearLogButton => clearLog s
  | Keypress_brokerUrl key => if (key =? "Enter")%string then connect s else s
  | Keypress_clientId key => if (key =? "Enter")%string then connect s else s
  | Edit_brokerUrl value => set_brokerUrl value s
  | Edit_clientId value => set_clientId value s
  | Connect_succeeded => connect_onSuccess s
  | Connect_failed errorMessage => connect_onFailure errorMessage s
  | Connection_lost errorMessage => onConnectionLost errorMessage s
  | Message_arrived destinationName payloadString =>
      onMessageArrived destinationName payloadString s
  | Subscribe_succeeded topic => subscribe_onSuccess topic s
  | Subscribe_failed topic errorMessage => subscribe_onFailure topic errorMessage s
  end.

Definition dispatch_all (evs : list Event) (s : State) : State :=
  fold_left (fun s ev => dispatch ev s) evs s.

(** The three mutators of the motor state, as the spec names them. *)
Inductive Mutator : Type :=
| SetSpeed (n : Z)
| ToggleMotor
| ToggleDirection.

Definition mutate (op : Mutator) (s : State) : State :=
  match op with
  | SetSpeed n => setSpeed (JsNumber.Int n) s
  | ToggleMotor => toggleMotor s
  | ToggleDirection => toggleDirection s
  end.

Definition mutate_all (ops : list Mutator) (s : State) : State :=
  fold_left (fun s op => mutate op s) ops s.

End Controller.

(** ** A reference platform

    One concrete [Platform], on which the model runs: a clock that ticks a
    second per reading, a JSON reader, a URL reader for
    [scheme://host:port/...] addresses and a Paho client whose constructor
    rejects over-long client identifiers.  The theorems below hold on every
    platform; this one serves to evaluate the model on concrete pages. *)

Module Reference.

Definition two_digits (n : nat) : string :=
  let d := NilZero.string_of_uint (Nat.to_uint n) in
  if (n <? 10)%nat then "0" ++ d else d.

(** Seconds past midnight, as [HH:MM:SS]. *)
Definition clock_text (t : nat) : string :=
  two_digits (t / 3600 mod 24) ++ ":" ++ two_digits (t / 60 mod 60) ++ ":"
  ++ two_digits (t mod 60).

(** A parsed JSON document; a number keeps its literal. *)
#[warnings="-register-all"]
Inductive Doc : Type :=
| DNull
| DBool (b : bool)
| DNum (literal : string)
| DStr (s : string)
| DArr (items : list Doc)
| DObj (members : list (string * Doc)).

Definition is_json_space (c : ascii) : bool :=
  match nat_of_ascii c with
  | 9%nat | 10%nat | 13%nat | 32%nat => true
  | _ => false
  end.

Fixpoint skip (s : string) : string :=
  match s with
  | String c r => if is_json_space c then skip r else s
  | EmptyString => s
  end.

Definition is_digit (c : ascii) : bool :=
  let n := nat_of_ascii c in (48 <=? n)%nat && (n <=? 57)%nat.

(** The longest run of digits at the front of [s], and what follows. *)
Fixpoint take_digits (s : string) : string * string :=
  match s with
  | String c r =>
      if is_digit c
      then let '(d, r') := take_digits r in (String c d, r')
      else (EmptyString, s)
  | EmptyString => (EmptyString, s)
  end.

(** A JSON number literal: sign, integer part without a leading zero,
    optional fraction, optional exponent. *)
Definition number (s : string) : option (string * string) :=
  let '(sign, s) :=
    match s with String "-" r => ("-", r) | _ => ("", s) end in
  let '(int, s) := take_digits s in
  match int with
  | EmptyString => None
  | String "0" (String _ _) => None
  | _ =>
      let frac :=
        match s with
        | String "." r =>
            let '(d, r') := take_digits r in
            match d with
            | EmptyString => None
            | _ => Some ("." ++ d, r')
            end
        | _ => Some ("", s)
        end in
      match frac with
      | None => None
      | Some (frac, s) =>
          let exponent (e : string) (r : string) :=
            let '(esign, r) :=
              match r with
              | String "+" r' => ("+", r')
              | String "-" r' => ("-", r')
              | _ => ("", r)
              end in
            let '(d, r') := take_digits r in
            match d with
            | EmptyString => None
            | _ => Some (sign ++ int ++ frac ++ e ++ esign ++ d, r')
            end in
          match s with
          | String "e" r => exponent "e" r
          | String "E" r => exponent "E" r
          | _ => Some (sign ++ int ++ frac, s)
          end
      end
  end.

Definition hex_value (c : ascii) : option nat :=
  match JsNumber.digit_value c with
  | Some d => if d <? 16 then Some (Z.to_nat d) else None
  | None => None
  end.

(** UTF-8 bytes of a code unit below 2^16. *)
Definition utf8 (n : nat) : string :=
  if (n <? 128)%nat then String (ascii_of_nat n) EmptyString
  else if (n <? 2048)%nat then
    String (ascii_of_nat (192 + n / 64))
      (String (ascii_of_nat (128 + n mod 64)) EmptyString)
  else
    String (ascii_of_nat (224 + n / 4096))
      (String (ascii_of_nat (128 + n / 64 mod 64))
         (String (ascii_of_nat (128 + n mod 64)) EmptyString)).

(** The characters of a string literal after its opening quote, up to the
    closing quote, with escapes decoded. *)
Fixpoint string_body (s : string) : option (string * string) :=
  match s with
  | EmptyString => None
  | String c r =>
      if (nat_of_ascii c =? 34)%nat then Some (EmptyString, r)
      else if (nat_of_ascii c <? 32)%nat then None
      else if (nat_of_ascii c =? 92)%nat then
        match r with
        | String e r' =>
            let plain (d : ascii) :=
              match string_body r' with
              | Some (t, r'') => Some (String d t, r'')
              | None => None
              end in
            match nat_of_ascii e with
            | 34%nat => plain e
            | 92%nat => plain e
            | 47%nat => plain e
            | 98%nat => plain (ascii_of_nat 8)
            | 102%nat => plain (ascii_of_nat 12)
            | 110%nat => plain (ascii_of_nat 10)
            | 114%nat => plain (ascii_of_nat 13)
            | 116%nat => plain (ascii_of_nat 9)
            | 117%nat =>
                match r' with
                | String h1 (String h2 (String h3 (String h4 r''))) =>
                    match hex_value h1, hex_value h2, hex_value h3, hex_value h4,
                          string_body r'' with
                    | Some a, Some b, Some c', Some d, Some (t, rest) =>
                        Some (utf8 (((a * 16 + b) * 16 + c') * 16 + d) ++ t, rest)
                    | _, _, _, _, _ => None
                    end
                | _ => None
                end
            | _ => None
            end
        | EmptyString => None
        end
      else
        match string_body r with
        | Some (t, r') => Some (String c t, r')
        | None => None
        end
  end.

Definition literal (word : string) (v : Doc) (s : string) : option (Doc * string) :=
  if String.prefix word s
  then Some (v, substring (String.length word) (String.length s - String.length word) s)
  else None.

(** A JSON value at the front of [s] (leading whitespace already skipped),
    and what follows it.  Two units of [fuel] are spent per character read
    at most. *)
Fixpoint value (fuel : nat) (s : string) : option (Doc * string) :=
  match fuel with
  | O => None
  | S fuel =>
      match s with
      | EmptyString => None
      | String c r =>
          match nat_of_ascii c with
          | 110%nat => literal "null" DNull s
          | 116%nat => literal "true" (DBool true) s
          | 102%nat => literal "false" (DBool false) s
          | 34%nat =>
              match string_body r with
              | Some (t, r') => Some (DStr t, r')
              | None => None
              end
          | 91%nat =>
              match skip r with
              | String "]" r' => Some (DArr [], r')
              | r' => items fuel r' []
              end
          | 123%nat =>
              match skip r with
              | String "}" r' => Some (DObj [], r')
              | r' => members fuel r' []
              end
          | _ =>
              match number s with
              | Some (lit, r') => Some (DNum lit, r')
              | None => None
              end
          end
      end
  end

with items (fuel : nat) (s : string) (acc : list Doc) : option (Doc * string) :=
  match fuel with
  | O => None
  | S fuel =>
      match value fuel s with
      | Some (v, r) =>
          match skip r with
          | String "," r' => items fuel (skip r') (v :: acc)
          | String "]" r' => Some (DArr (rev (v :: acc)), r')
          | _ => None
          end
      | None => None
      end
  end

with members (fuel : nat) (s : string) (acc : list (string * Doc))
    : option (Doc * string) :=
  match fuel with
  | O => None
  | S fuel =>
      match s with
      | String c r =>
          if (nat_of_ascii c =? 34)%nat then
            match string_body r with
            | Some (key, r) =>
                match skip r with
                | String ":" r =>
                    match value fuel (skip r) with
                    | Some (v, r) =>
                        match skip r with
                        | String "," r' => members fuel (skip r') ((key, v) :: acc)
                        | String "}" r' => Some (DObj (rev ((key, v) :: acc)), r')
                        | _ => None
                        end
                    | None => None
                    end
                | _ => None
                end
            | None => None
            end
          else None
      | EmptyString => None
      end
  end.

(** A whole document: one value between optional whitespace. *)
Definition parse (s : string) : option Doc :=
  match value (2 * String.length s + 2) (skip s) with
  | Some (v, r) =>
      match skip r with
      | EmptyString => Some v
      | _ => None
      end
  | None => None
  end.

(** The member a property read finds: the last one with that key. *)
Fixpoint get (key : string) (members : list (string * Doc)) : option Doc :=
  match members with
  | [] => None
  | (k, v) :: r =>
      match get key r with
      | Some v' => Some v'
      | None => if (k =? key)%string then Some v else None
      end
  end.

(** What a template literal shows for a value ([None] is [undefined]). A
    number shows as its literal, which is exact for integers written
    without fraction or exponent. *)
Fixpoint show (fuel : nat) (v : option Doc) : string :=
  match v with
  | None => "undefined"
  | Some DNull => "null"
  | Some (DBool true) => "true"
  | Some (DBool false) => "false"
  | Some (DNum lit) => lit
  | Some (DStr s) => s
  | Some (DObj _) => "[object Object]"
  | Some (DArr l) =>
      match fuel with
      | O => ""
      | S fuel =>
          JsJSON.join ","
            (map (fun x => match x with DNull => "" | _ => show fuel (Some x) end) l)
      end
  end.

Fixpoint depth (v : Doc) : nat :=
  match v with
  | DArr l => S (fold_right (fun x n => Nat.max (depth x) n) 0%nat l)
  | _ => 0%nat
  end.

(** [`${data.message}`]. *)
Definition message (data : Doc) : option string :=
  match data with
  | DNull => None
  | DObj members =>
      let v := get "message" members in
      Some (show (match v with Some d => depth d | None => 0%nat end) v)
  | _ => Some "undefined"
  end.

(** [scheme://host] with an optional [:port], up to the first [/], [?] or
    [#]; a port equal to the scheme's default reads as the empty string. *)
Fixpoint until (stop : ascii -> bool) (s : string) : string * string :=
  match s with
  | String c r =>
      if stop c then (EmptyString, s)
      else let '(a, b) := until stop r in (String c a, b)
  | EmptyString => (EmptyString, s)
  end.

Definition all_digits (s : string) : bool :=
  let '(_, rest) := take_digits s in
  match rest with EmptyString => true | _ => false end.

Definition default_port (scheme : string) : string :=
  if (scheme =? "ws")%string then "80"
  else if (scheme =? "wss")%string then "443"
  else "".

Definition url (s : string) : string + URL :=
  let '(scheme, rest) := until (fun c => (nat_of_ascii c =? 58)%nat) s in
  match rest with
  | String _ (String "/" (String "/" rest)) =>
      let '(authority, _) :=
        until (fun c => match nat_of_ascii c with
                        | 47%nat | 63%nat | 35%nat => true
                        | _ => false
                        end) rest in
      let '(host, p) := until (fun c => (nat_of_ascii c =? 58)%nat) authority in
      let p := match p with String _ p' => p' | EmptyString => EmptyString end in
      match host with
      | EmptyString => inl "Invalid URL"
      | _ =>
          if negb (all_digits p) then inl "Invalid URL"
          else
            match JsNumber.parseInt p with
            | JsNumber.Int n =>
                if 65535 <? n then inl "Invalid URL"
                else
                  let p := JsNumber.toString (JsNumber.Int n) in
                  inr {| hostname := host;
                         port := if (p =? default_port scheme)%string then "" else p |}
            | JsNumber.NaN => inr {| hostname := host; port := "" |}
            | JsNumber.Infinity _ => inl "Invalid URL"
            end
      end
  | _ => inl "Invalid URL"
  end.

(** Paho refuses a client identifier longer than 65535 characters. *)
Definition client_check (host : string) (port : JsNumber.t) (clientId : string)
    : option string :=
  if 65535 <? Z.of_nat (String.length clientId)
  then Some ("AMQJS0013E Invalid argument " ++ clientId ++ " for clientId.")
  else None.

Definition platform : Platform :=
  {| Date := nat;
     new_Date := fun k => k;
     toLocaleTimeString := clock_text;
     toISOString := fun t => "1970-01-01T" ++ clock_text t ++ ".000Z";
     Parsed := Doc;
     JSON_parse := parse;
     message_text := message;
     new_URL := url;
     Paho_Client_throws := client_check;
     Paho_connect_throws := fun _ _ => None |}.

(** A page as the panel could ship it: nothing typed yet, an empty log. *)
Definition page : Elements :=
  {| statusIndicator_classList := ["status-indicator"];
     statusText_textContent := "Disconnected";
     connectButton_textContent := "Connect to MQTT";
     connectButton_background := "";
     brokerUrl_value := "";
     clientId_value := "";
     speedSlider_value := "0";
     speedValue_textContent := "0";
     powerButton_classList := ["control-button"; "off"];
     powerButton_text := "Turn On";
     powerStatus_textContent := "Motor: OFF";
     directionButton_classList := ["control-button"; "forward"];
     directionButton_text := "Forward";
     directionButton_icon := "";
     directionStatus_textContent := "Direction: FORWARD";
     statusLog := [] |}.

(** The controller right after the page bootstrap ran [initialize]. *)
Definition start : State :=
  initialize (P := platform) (constructor page true).

(** The user typed an address and a client identifier and pressed the
    connect button; the session has not answered yet. *)
Definition pending : State :=
  dispatch_all (P := platform)
    [Edit_brokerUrl "ws://broker.example:9001"; Edit_clientId "panel";
     Click_connectButton]
    start.

(** Enter was pressed twice, so two clients were started.  One connects,
    the user disconnects, then the other client's [onSuccess] arrives. *)
Definition orphaned : State :=
  dispatch_all (P := platform)
    [Edit_brokerUrl "ws://broker.example:9001"; Edit_clientId "panel";
     Keypress_brokerUrl "Enter"; Keypress_brokerUrl "Enter";
     Connect_succeeded; Click_connectButton; Connect_succeeded]
    start.

(** The user typed an [http] address, which is none of the three schemes. *)
Definition mistyped : State :=
  dispatch_all (P := platform)
    [Edit_brokerUrl "  http://broker.example:9001 "; Edit_clientId "panel"]
    start.

(** A session is up. *)
Definition connected : State :=
  dispatch_all (P := platform) [Connect_succeeded] pending.

(** The power button was pressed fifty times: the log is full. *)
Definition busy : State :=
  dispatch_all (P := platform) (repeat Click_powerButton 50) start.

End Reference.

(** ** Properties the theorems speak about *)

(** The two values the [direction] field is meant to hold. *)
Definition direction_valid (m : MotorState) : Prop :=
  direction m = "forward" \/ direction m = "reverse".

(** The speed is an integer between 0 and 100. *)
Definition speed_in_range (m : MotorState) : Prop :=
  exists n : Z, speed m = JsNumber.Int n /\ 0 <= n <= 100.

(** The motor state every controller starts from. *)
Definition initial_motorState : MotorState :=
  {| isOn := false; speed := JsNumber.Int 0; direction := "forward" |}.

(** The page shows motor state [m] and connection flag [connected]: what
    a refresh of the UI establishes. *)
Definition displayed (m : MotorState) (connected : bool) (e : Elements) : Prop :=
  let forward := (direction m =? "forward")%string in
  speedValue_textContent e = JsNumber.toString (speed m)
  /\ speedSlider_value e = JsNumber.toString (speed m)
  /\ powerButton_text e = (if isOn m then "Turn Off" else "Turn On")
  /\ powerStatus_textContent e = (if isOn m then "Motor: ON" else "Motor: OFF")
  /\ ClassList.contains (powerButton_classList e) (if isOn m then "on" else "off") = true
  /\ ClassList.contains (powerButton_classList e) (if isOn m then "off" else "on") = false
  /\ directionButton_text e = (if forward then "Forward" else "Reverse")
  /\ directionStatus_textContent e
     = (if forward then "Direction: FORWARD" else "Direction: REVERSE")
  /\ ClassList.contains (directionButton_classList e)
       (if forward then "forward" else "reverse") = true
  /\ ClassList.contains (directionButton_classList e)
       (if forward then "reverse" else "forward") = false
  /\ connectButton_textContent e
     = (if connected then "Disconnect" else "Connect to MQTT").

(** The newest line of the log pane is [text] behind some time stamp. *)
Definition logged (text : string) (s : State) : Prop :=
  exists older stamp,
    statusLog (elements s) = app older [("[" ++ stamp ++ "] " ++ text)%string].

(** The status indicator reads as each of the four statuses. *)
Definition indicates (text : string) (connected : bool) (s : State) : Prop :=
  statusText_textContent (elements s) = text
  /\ ClassList.contains (statusIndicator_classList (elements s)) "connected" = connected.

(** The last status handed to [updateConnectionStatus], if any. *)
Definition last_status (s : State) : option string :=
  fold_left (fun acc e => match e with Status st => Some st | _ => acc end)
    (effects s) None.

(** The motor state a mutator leaves behind. *)
Definition mutated (op : Mutator) (m : MotorState) : MotorState :=
  match op with
  | SetSpeed n =>
      {| isOn := isOn m; speed := JsNumber.Int (Z.max 0 (Z.min 100 n));
         direction := direction m |}
  | ToggleMotor =>
      {| isOn := negb (isOn m); speed := speed m; direction := direction m |}
  | ToggleDirection =>
      {| isOn := isOn m; speed := speed m;
         direction := if (direction m =? "forward")%string then "reverse" else "forward" |}
  end.

(** The ways an invocation of [connect] fails before it returns. *)
Inductive ConnectFailure : Type :=
| Missing_brokerUrl
| Missing_clientId
| Thrown (message : string).

Section Derived.

Context {P : Platform}.

(** Which failure, if any, [connect] runs into in state [s]: the two
    input checks, then an error thrown inside the [try]. *)
Definition connect_failure (s : State) : option ConnectFailure :=
  let brokerUrl := JsString.trim (brokerUrl_value (elements s)) in
  let clientId := JsString.trim (clientId_value (elements s)) in
  if negb (JsString.truthy brokerUrl) then Some Missing_brokerUrl
  else if negb (JsString.truthy clientId) then Some Missing_clientId
  else
    match fst (connect_try brokerUrl clientId s) with
    | inl message => Some (Thrown message)
    | inr _ => None
    end.

(** The log after [addLogEntry], spelled out. *)
Definition log_after (message : string) (s : State) : list string :=
  let entries :=
    (statusLog (elements s)
     ++ [("[" ++ toLocaleTimeString (new_Date (dates s)) ++ "] " ++ message)%string])%list in
  if (50 <? List.length entries)%nat then tl entries else entries.

(** The publish step of a mutator: [if (this.isConnected) publishMotorState()]. *)
Definition publish_if_connected (s : State) : State :=
  if isConnected s then publishMotorState s else s.

(** What [if (this.isConnected) publishMotorState()] sends. *)
Definition published (s : State) : list Effect :=
  match client s with
  | Some c =>
      if isConnected s then
        [ClientPublish c (motor topics)
           (JsJSON.stringify
              (motor_message (motorState s) (toISOString (new_Date (dates s)))))
           0 false]
      else []
  | None => []
  end.

(** A computation inside the [try] that leaves the motor state alone. *)
Definition keeps_motorState {A : Type} (m : Try A) : Prop :=
  forall s, motorState (snd (m s)) = motorState s.

End Derived.

(** The line [connect] writes to the log for each failure. *)
Definition failure_text (f : ConnectFailure) : string :=
  match f with
  | Missing_brokerUrl => "Error: Please enter a broker URL"
  | Missing_clientId => "Error: Please enter a client ID"
  | Thrown message => "Connection failed: " ++ message
  end.

(** ** Invariants across methods and events *)

(** [f] keeps the property [I] of states. *)
Definition preserves (I : State -> Prop) (f : State -> State) : Prop :=
  forall s, I s -> I (f s).

(** The state a computation of the [try] block ends in keeps [I], whether
    it throws or not. *)
Definition try_preserves {A : Type} (I : State -> Prop) (m : Try A) : Prop :=
  forall s, I s -> I (snd (m s)).

Section Stability.

Context {P : Platform}.

(** [I] survives each elementary write the methods are made of, apart
    from [isConnected = true], which only the success callback writes. *)
Record Stable (I : State -> Prop) : Prop := {
  stable_addLogEntry : forall message, preserves I (addLogEntry message);
  stable_updateConnectionStatus : forall st, preserves I (updateConnectionStatus st);
  stable_set_client : forall c, preserves I (set_client c);
  stable_set_isConnected_false : preserves I (set_isConnected false);
  stable_set_motorState : forall m, preserves I (set_motorState m);
  stable_updateUI : preserves I updateUI;
  stable_publishMotorState : preserves I publishMotorState;
  stable_subscribeToTopics : preserves I subscribeToTopics;
  stable_ClientConnect :
    forall c useSSL, preserves I (emit (ClientConnect c useSSL 10 60 true));
  stable_ClientDisconnect : forall c, preserves I (emit (ClientDisconnect c));
  stable_clearLog : preserves I clearLog;
  stable_set_brokerUrl : forall value, preserves I (set_brokerUrl value);
  stable_set_clientId : forall value, preserves I (set_clientId value)
}.

(** The writes [connect] is made of. *)
Record StableConnect (I : State -> Prop) : Prop := {
  connect_addLogEntry : forall message, preserves I (addLogEntry message);
  connect_updateConnectionStatus :
    forall st, preserves I (updateConnectionStatus st);
  connect_set_client : forall c, preserves I (set_client c);
  connect_ClientConnect :
    forall c useSSL, preserves I (emit (ClientConnect c useSSL 10 60 true))
}.

End Stability.

(** The log pane holds at most 50 entries. *)
Definition log_within_cap (s : State) : Prop :=
  (List.length (statusLog (elements s)) <= 50)%nat.

(** What the controller may ask of a Paho client: a session with the fixed
    options, a subscription to one of the three topics, a publication on
    the motor topic with quality of service 0 and no retain flag. *)
Definition effect_expected (e : Effect) : Prop :=
  match e with
  | Status _ => True
  | ClientConnect _ _ timeout keepAliveInterval cleanSession =>
      timeout = 10 /\ keepAliveInterval = 60 /\ cleanSession = true
  | ClientDisconnect _ => True
  | ClientSubscribe _ topic => In topic (Object_values topics)
  | ClientPublish _ topic _ qos retained =>
      topic = motor topics /\ qos = 0 /\ retained = false
  end.

(** The status text and the [connected] class of the indicator agree. *)
Definition indicator_consistent (s : State) : Prop :=
  ClassList.contains (statusIndicator_classList (elements s)) "connected" = true
  <-> statusText_textContent (elements s) = "Connected".

(** The text [updateConnectionStatus] shows for a status. *)
Definition status_text (st : string) : string :=
  if (st =? "connected")%string then "Connected"
  else if (st =? "connecting")%string then "Connecting..."
  else if (st =? "error")%string then "Connection Error"
  else "Disconnected".

(** The default port and TLS flag [connect] attaches to each scheme. *)
Definition scheme_defaults (brokerUrl : string) : option (Z * bool) :=
  if JsString.startsWith brokerUrl "ws://" then Some (8000, false)
  else if JsString.startsWith brokerUrl "wss://" then Some (8884, true)
  else if JsString.startsWith brokerUrl "mqtt://" then Some (1883, false)
  else None.

(** Effects of [connect] itself: status updates and the request to open a
    session. *)
Definition connect_effect (e : Effect) : Prop :=
  match e with
  | Status _ | ClientConnect _ _ _ _ _ => True
  | _ => False
  end.

(** The line a mutator writes to the log, from the motor state it left. *)
Definition mutator_text (op : Mutator) (m : MotorState) : string :=
  match op with
  | SetSpeed _ => "Speed set to " ++ JsNumber.toString (speed m) ++ "%"
  | ToggleMotor => "Motor turned " ++ (if isOn m then "ON" else "OFF")
  | ToggleDirection => "Direction changed to " ++ JsString.toUpperCase (direction m)
  end.

(** The string is a run of whitespace code points (possibly none). *)
Definition whitespace_only (a : string) : Prop :=
  exists codes : list string,
    Forall (fun w => JsString.is_space_code w = true) codes
    /\ a = fold_right String.append EmptyString codes.

(** More pages and runs on the reference platform. *)
Module Scenario.

(** A page that ships with sixty lines already in its log pane. *)
Definition crowded : State :=
  set_statusLog (repeat "[09:00:00] earlier line"%string 60) Reference.start.

(** A blank, a no-break space and an ideographic space typed into the
    address field, a tab into the other. *)
Definition blank : State :=
  dispatch_all (P := Reference.platform)
    [Edit_brokerUrl (" " ++ JsString.utf8 160 ++ JsString.utf8 12288);
     Edit_clientId (JsString.utf8 9)]
    Reference.start.

(** A secure address without a port and a client identifier, with
    no-break spaces around them. *)
Definition padded : State :=
  dispatch_all (P := Reference.platform)
    [Edit_brokerUrl
       (JsString.utf8 160 ++ "wss://broker.example/mqtt" ++ JsString.utf8 160);
     Edit_clientId ("panel" ++ JsString.utf8 160)]
    Reference.start.

(** A day at the panel. *)
Definition session : list Event :=
  [Edit_brokerUrl "ws://broker.example:9001"; Edit_clientId "panel";
   Click_connectButton; Connect_succeeded;
   Subscribe_succeeded "akuri/motor/control";
   Input_speedSlider "70"; Click_powerButton; Click_directionButton;
   Message_arrived "akuri/motor/status"
     (JsJSON.stringify (JObj [("message"%string, JStr "running")]));
   Connection_lost "socket closed"; Click_clearLogButton; Click_connectButton].

End Scenario.

(** ** Theorems *)

Section Theorems.

Context {P : Platform}.

(** *** Class lists *)

Lemma contains_remove (c : string) (l : list string) :
  ClassList.contains (ClassList.remove c l) c = false.
Proof.
  unfold ClassList.contains, ClassList.remove.
  induction l as [|x l IH]; simpl; [reflexivity|].
  destruct (String.eqb c x) eqn:E; simpl; [exact IH|].
  rewrite E. exact IH.
Qed.

Lemma contains_remove_other (c d : string) (l : list string) :
  (c =? d)%string = false ->
  ClassList.contains (ClassList.remove c l) d = ClassList.contains l d.
Proof.
  intros Hcd. unfold ClassList.contains, ClassList.remove.
  induction l as [|x l IH]; simpl; [reflexivity|].
  destruct (String.eqb c x) eqn:E; simpl.
  - apply String.eqb_eq in E. subst x.
    rewrite String.eqb_sym, Hcd. exact IH.
  - rewrite IH. reflexivity.
Qed.

Lemma contains_app (l r : list string) (c : string) :
  ClassList.contains (l ++ r) c = ClassList.contains l c || ClassList.contains r c.
Proof. unfold ClassList.contains. apply existsb_app. Qed.

Lemma contains_add (c : string) (l : list string) :
  ClassList.contains (ClassList.add c l) c = true.
Proof.
  unfold ClassList.add.
  destruct (ClassList.contains l c) eqn:E; [exact E|].
  rewrite contains_app, E. simpl. rewrite String.eqb_refl. reflexivity.
Qed.

Lemma contains_add_other (c d : string) (l : list string) :
  (d =? c)%string = false ->
  ClassList.contains (ClassList.add c l) d = ClassList.contains l d.
Proof.
  intros Hdc. unfold ClassList.add.
  destruct (ClassList.contains l c); [reflexivity|].
  rewrite contains_app. simpl. rewrite Hdc, !orb_false_r. reflexivity.
Qed.

(** *** What each method leaves alone *)

Lemma addLogEntry_eq (message : string) (s : State) :
  addLogEntry message s = set_statusLog (log_after message s) (tick s).
Proof.
  unfold addLogEntry, log_after. cbv zeta.
  change (statusLog (elements (tick s))) with (statusLog (elements s)).
  destruct (Nat.ltb 50 _); reflexivity.
Qed.

Lemma addLogEntry_motorState (message : string) (s : State) :
  motorState (addLogEntry message s) = motorState s.
Proof. rewrite addLogEntry_eq. reflexivity. Qed.

Lemma addLogEntry_isConnected (message : string) (s : State) :
  isConnected (addLogEntry message s) = isConnected s.
Proof. rewrite addLogEntry_eq. reflexivity. Qed.

Lemma addLogEntry_client (message : string) (s : State) :
  client (addLogEntry message s) = client s.
Proof. rewrite addLogEntry_eq. reflexivity. Qed.

Lemma addLogEntry_effects (message : string) (s : State) :
  effects (addLogEntry message s) = effects s.
Proof. rewrite addLogEntry_eq. reflexivity. Qed.

Lemma addLogEntry_statusLog (message : string) (s : State) :
  statusLog (elements (addLogEntry message s)) = log_after message s.
Proof. rewrite addLogEntry_eq. reflexivity. Qed.

Lemma publishMotorState_motorState (s : State) :
  motorState (publishMotorState s) = motorState s.
Proof.
  unfold publishMotorState.
  destruct (client s); [destruct (isConnected s)|]; reflexivity.
Qed.

Lemma publishMotorState_elements (s : State) :
  elements (publishMotorState s) = elements s.
Proof.
  unfold publishMotorState.
  destruct (client s); [destruct (isConnected s)|]; reflexivity.
Qed.

Lemma publishMotorState_isConnected (s : State) :
  isConnected (publishMotorState s) = isConnected s.
Proof.
  unfold publishMotorState.
  destruct (client s); [destruct (isConnected s) eqn:E|]; simpl; congruence.
Qed.

Lemma publishMotorState_client (s : State) :
  client (publishMotorState s) = client s.
Proof.
  unfold publishMotorState.
  destruct (client s) eqn:E; [destruct (isConnected s)|]; simpl; congruence.
Qed.

Lemma publish_if_connected_motorState (s : State) :
  motorState (publish_if_connected s) = motorState s.
Proof.
  unfold publish_if_connected.
  destruct (isConnected s); [apply publishMotorState_motorState | reflexivity].
Qed.

Lemma publish_if_connected_elements (s : State) :
  elements (publish_if_connected s) = elements s.
Proof.
  unfold publish_if_connected.
  destruct (isConnected s); [apply publishMotorState_elements | reflexivity].
Qed.

Lemma publish_if_connected_isConnected (s : State) :
  isConnected (publish_if_connected s) = isConnected s.
Proof.
  unfold publish_if_connected.
  destruct (isConnected s) eqn:E; [rewrite publishMotorState_isConnected|]; exact E.
Qed.

Lemma publish_if_connected_client (s : State) :
  client (publish_if_connected s) = client s.
Proof.
  unfold publish_if_connected.
  destruct (isConnected s); [apply publishMotorState_client | reflexivity].
Qed.

(** Each mutator is: write the field, refresh, publish if connected, log. *)
Lemma setSpeed_eq (n : JsNumber.t) (s : State) :
  setSpeed n s =
  let s1 :=
    publish_if_connected
      (updateUI
         (set_motorState
            {| isOn := isOn (motorState s);
               speed := JsNumber.Math_max (JsNumber.Int 0)
                          (JsNumber.Math_min (JsNumber.Int 100) n);
               direction := direction (motorState s) |} s)) in
  addLogEntry
    ("Speed set to " ++ JsNumber.toString (speed (motorState s1)) ++ "%") s1.
Proof. reflexivity. Qed.

Lemma toggleMotor_eq (s : State) :
  toggleMotor s =
  let s1 :=
    publish_if_connected
      (updateUI
         (set_motorState
            {| isOn := negb (isOn (motorState s)); speed := speed (motorState s);
               direction := direction (motorState s) |} s)) in
  addLogEntry
    ("Motor turned " ++ (if isOn (motorState s1) then "ON" else "OFF")) s1.
Proof. reflexivity. Qed.

Lemma toggleDirection_eq (s : State) :
  toggleDirection s =
  let s1 :=
    publish_if_connected
      (updateUI
         (set_motorState
            {| isOn := isOn (motorState s); speed := speed (motorState s);
               direction :=
                 if (direction (motorState s) =? "forward")%string
                 then "reverse" else "forward" |} s)) in
  addLogEntry
    ("Direction changed to " ++ JsString.toUpperCase (direction (motorState s1))) s1.
Proof. reflexivity. Qed.

Lemma mutate_motorState (op : Mutator) (s : State) :
  motorState (mutate op s) = mutated op (motorState s).
Proof.
  destruct op; simpl mutate;
    [rewrite setSpeed_eq | rewrite toggleMotor_eq | rewrite toggleDirection_eq];
    cbv zeta; rewrite addLogEntry_motorState, publish_if_connected_motorState;
    reflexivity.
Qed.

Lemma setSpeed_motorState (n : Z) (s : State) :
  motorState (setSpeed (JsNumber.Int n) s) = mutated (SetSpeed n) (motorState s).
Proof. exact (mutate_motorState (SetSpeed n) s). Qed.

Lemma toggleMotor_motorState (s : State) :
  motorState (toggleMotor s) = mutated ToggleMotor (motorState s).
Proof. exact (mutate_motorState ToggleMotor s). Qed.

Lemma toggleDirection_motorState (s : State) :
  motorState (toggleDirection s) = mutated ToggleDirection (motorState s).
Proof. exact (mutate_motorState ToggleDirection s). Qed.

(** *** The motor state *)

(** C1. For every integer [n], [setSpeed(n)] stores [n] clamped into
    [0, 100], that is [max(0, min(100, n))], in the [speed] field; the
    stored value lies between 0 and 100. *)
Theorem setSpeed_clamps (n : Z) (s : State) :
  speed (motorState (setSpeed (JsNumber.Int n) s))
  = JsNumber.Int (Z.max 0 (Z.min 100 n))
  /\ 0 <= Z.max 0 (Z.min 100 n) <= 100.
Proof.
  split; [|lia].
  rewrite setSpeed_motorState. reflexivity.
Qed.

Lemma mutated_ToggleMotor_twice (m : MotorState) :
  mutated ToggleMotor (mutated ToggleMotor m) = m.
Proof. destruct m as [on sp dir]. simpl. rewrite negb_involutive. reflexivity. Qed.

Lemma mutated_ToggleDirection_twice (m : MotorState) :
  direction_valid m -> mutated ToggleDirection (mutated ToggleDirection m) = m.
Proof.
  destruct m as [on sp dir]. unfold direction_valid. simpl.
  intros [-> | ->]; reflexivity.
Qed.

(** C2. [toggleMotor] and [toggleDirection] are involutions on the motor
    state: two calls of [toggleMotor] give back the motor state they
    started from, and so do two calls of [toggleDirection] on a motor
    state whose direction is one of the two directions, forward or
    reverse; the other fields are untouched. *)
Theorem toggles_are_involutions (s : State) :
  motorState (toggleMotor (toggleMotor s)) = motorState s
  /\ (direction_valid (motorState s) ->
      motorState (toggleDirection (toggleDirection s)) = motorState s).
Proof.
  split.
  - rewrite !toggleMotor_motorState. apply mutated_ToggleMotor_twice.
  - intros Hdir. rewrite !toggleDirection_motorState.
    apply mutated_ToggleDirection_twice, Hdir.
Qed.

Lemma mutated_invariant (op : Mutator) (m : MotorState) :
  direction_valid m /\ speed_in_range m ->
  direction_valid (mutated op m) /\ speed_in_range (mutated op m).
Proof.
  intros [Hdir [k [Hk Hrange]]].
  destruct op as [n| |]; unfold direction_valid, speed_in_range; simpl.
  - split; [exact Hdir|]. exists (Z.max 0 (Z.min 100 n)). split; [reflexivity|lia].
  - split; [exact Hdir|]. exists k. split; assumption.
  - split; [|exists k; split; assumption].
    destruct (direction m =? "forward")%string; [right|left]; reflexivity.
Qed.

Lemma mutate_all_invariant (ops : list Mutator) (s : State) :
  direction_valid (motorState s) /\ speed_in_range (motorState s) ->
  direction_valid (motorState (mutate_all ops s))
  /\ speed_in_range (motorState (mutate_all ops s)).
Proof.
  revert s. induction ops as [|op ops IH]; intros s Hs; [exact Hs|].
  change (mutate_all (op :: ops) s) with (mutate_all ops (mutate op s)).
  apply IH. rewrite mutate_motorState. apply mutated_invariant, Hs.
Qed.

(** C10. Starting from the initial motor state (off, speed 0, forward),
    after any sequence of [setSpeed] with integer arguments, [toggleMotor]
    and [toggleDirection], the direction is exactly forward or reverse and
    the speed is an integer between 0 and 100. *)
Theorem motor_state_invariant (ops : list Mutator) (s : State)
    (Hinit : motorState s = initial_motorState) :
  direction_valid (motorState (mutate_all ops s))
  /\ speed_in_range (motorState (mutate_all ops s)).
Proof.
  apply mutate_all_invariant. rewrite Hinit.
  split; [left; reflexivity|]. exists 0. split; [reflexivity|lia].
Qed.

(** *** The log *)

Lemma log_after_short (message : string) (s : State) :
  (List.length (statusLog (elements s)) < 50)%nat ->
  log_after message s
  = (statusLog (elements s)
     ++ [("[" ++ toLocaleTimeString (new_Date (dates s)) ++ "] " ++ message)%string])%list.
Proof.
  intros Hlen. unfold log_after. cbv zeta.
  rewrite length_app. simpl List.length.
  destruct (Nat.ltb_spec 50 (List.length (statusLog (elements s)) + 1)); [lia|reflexivity].
Qed.

Lemma log_after_full (message : string) (s : State) :
  (50 <= List.length (statusLog (elements s)))%nat ->
  log_after message s
  = (tl (statusLog (elements s))
     ++ [("[" ++ toLocaleTimeString (new_Date (dates s)) ++ "] " ++ message)%string])%list.
Proof.
  intros Hlen. unfold log_after. cbv zeta.
  rewrite length_app. simpl List.length.
  destruct (Nat.ltb_spec 50 (List.length (statusLog (elements s)) + 1)); [|lia].
  destruct (statusLog (elements s)); [simpl in Hlen; lia | reflexivity].
Qed.

(** C3. On a log of at most 50 entries, [addLogEntry] appends the new
    entry; if that makes more than 50, exactly the oldest entry goes, the
    others keep their order.  The log afterwards has at most 50 entries. *)
Theorem addLogEntry_caps_log (message : string) (s : State)
    (Hcap : (List.length (statusLog (elements s)) <= 50)%nat) :
  let entry :=
    ("[" ++ toLocaleTimeString (new_Date (dates s)) ++ "] " ++ message)%string in
  let before := statusLog (elements s) in
  let after := statusLog (elements (addLogEntry message s)) in
  ((List.length before < 50)%nat -> after = (before ++ [entry])%list)
  /\ ((List.length before = 50)%nat ->
      exists oldest rest,
        before = oldest :: rest /\ after = (rest ++ [entry])%list)
  /\ (List.length after <= 50)%nat.
Proof.
  cbv zeta. rewrite addLogEntry_statusLog. repeat split.
  - apply log_after_short.
  - intros Hlen. rewrite log_after_full by lia.
    destruct (statusLog (elements s)) as [|oldest rest]; [discriminate|].
    exists oldest, rest. split; reflexivity.
  - destruct (Nat.lt_ge_cases (List.length (statusLog (elements s))) 50) as [Hlt|Hge].
    + rewrite log_after_short by exact Hlt. rewrite length_app. simpl. lia.
    + rewrite log_after_full by exact Hge. rewrite length_app.
      destruct (statusLog (elements s)); simpl in *; lia.
Qed.

Lemma log_after_last (message : string) (s : State) :
  exists older,
    log_after message s
    = (older
       ++ [("[" ++ toLocaleTimeString (new_Date (dates s)) ++ "] " ++ message)%string])%list.
Proof.
  destruct (Nat.lt_ge_cases (List.length (statusLog (elements s))) 50) as [Hlt|Hge].
  - exists (statusLog (elements s)). apply log_after_short, Hlt.
  - exists (tl (statusLog (elements s))). apply log_after_full, Hge.
Qed.

Lemma addLogEntry_logged (message : string) (s : State) :
  logged message (addLogEntry message s).
Proof.
  destruct (log_after_last message s) as [older Holder].
  exists older, (toLocaleTimeString (new_Date (dates s))).
  rewrite addLogEntry_statusLog. exact Holder.
Qed.

Lemma string_app_assoc (a b c : string) :
  ((a ++ b) ++ c = a ++ (b ++ c))%string.
Proof. induction a as [|x a IH]; simpl; [reflexivity | rewrite IH; reflexivity]. Qed.

Lemma string_app_empty (a : string) : (a ++ "" = a)%string.
Proof. induction a as [|x a IH]; simpl; [reflexivity | rewrite IH; reflexivity]. Qed.

(** *** The status indicator *)

Lemma updateConnectionStatus_eq (st : string) (s : State) :
  exists classList text,
    updateConnectionStatus st s
    = set_statusIndicator classList text (emit (Status st) s).
Proof.
  unfold updateConnectionStatus. cbv zeta.
  destruct (st =? "connected")%string; [eauto|].
  destruct (st =? "connecting")%string; [eauto|].
  destruct (st =? "error")%string; eauto.
Qed.

Lemma updateConnectionStatus_isConnected (st : string) (s : State) :
  isConnected (updateConnectionStatus st s) = isConnected s.
Proof. destruct (updateConnectionStatus_eq st s) as (cl & t & ->). reflexivity. Qed.

Lemma updateConnectionStatus_client (st : string) (s : State) :
  client (updateConnectionStatus st s) = client s.
Proof. destruct (updateConnectionStatus_eq st s) as (cl & t & ->). reflexivity. Qed.

Lemma updateConnectionStatus_effects (st : string) (s : State) :
  effects (updateConnectionStatus st s) = (effects s ++ [Status st])%list.
Proof. destruct (updateConnectionStatus_eq st s) as (cl & t & ->). reflexivity. Qed.

Lemma updateConnectionStatus_statusLog (st : string) (s : State) :
  statusLog (elements (updateConnectionStatus st s)) = statusLog (elements s).
Proof. destruct (updateConnectionStatus_eq st s) as (cl & t & ->). reflexivity. Qed.

Lemma updateConnectionStatus_error (s : State) :
  indicates "Connection Error" false (updateConnectionStatus "error" s).
Proof. split; [reflexivity | apply contains_remove]. Qed.

Lemma updateConnectionStatus_disconnected (s : State) :
  indicates "Disconnected" false (updateConnectionStatus "disconnected" s).
Proof. split; [reflexivity | apply contains_remove]. Qed.

Lemma last_status_snoc (s : State) (l : list Effect) (st : string) :
  effects s = (l ++ [Status st])%list -> last_status s = Some st.
Proof.
  intros Heff. unfold last_status. rewrite Heff, fold_left_app. reflexivity.
Qed.

Lemma updateConnectionStatus_last_status (st : string) (s : State) :
  last_status (updateConnectionStatus st s) = Some st.
Proof.
  apply last_status_snoc with (l := effects s).
  apply updateConnectionStatus_effects.
Qed.

Lemma updateConnectionStatus_logged (text st : string) (s : State) :
  logged text s -> logged text (updateConnectionStatus st s).
Proof.
  unfold logged. rewrite updateConnectionStatus_statusLog. trivial.
Qed.

(** *** [connect] *)

Lemma truthy_nonempty (a : string) : a <> ""%string -> JsString.truthy a = true.
Proof. destruct a; [congruence | reflexivity]. Qed.

(** [connect] by the failure it meets. *)
Lemma connect_eq (s : State) :
  let brokerUrl := JsString.trim (brokerUrl_value (elements s)) in
  let clientId := JsString.trim (clientId_value (elements s)) in
  connect s =
  match connect_failure s with
  | Some (Thrown message) =>
      updateConnectionStatus "error"
        (addLogEntry ("Connection failed: " ++ message)
           (snd (connect_try brokerUrl clientId s)))
  | Some f => addLogEntry (failure_text f) s
  | None => snd (connect_try brokerUrl clientId s)
  end.
Proof.
  cbv zeta. unfold connect, connect_failure.
  destruct (negb (JsString.truthy (JsString.trim (brokerUrl_value (elements s)))));
    [reflexivity|].
  destruct (negb (JsString.truthy (JsString.trim (clientId_value (elements s)))));
    [reflexivity|].
  destruct (connect_try _ _ s) as [[message|u] s']; reflexivity.
Qed.

(** The [try] block on an address with none of the three schemes. *)
Lemma connect_try_unsupported (brokerUrl clientId : string) (s : State) :
  JsString.startsWith brokerUrl "ws://" = false ->
  JsString.startsWith brokerUrl "wss://" = false ->
  JsString.startsWith brokerUrl "mqtt://" = false ->
  connect_try brokerUrl clientId s =
  if Paho_defined s then
    (inl "Unsupported protocol. Use ws://, wss://, or mqtt://"%string,
     updateConnectionStatus "connecting"
       (addLogEntry ("Connecting to MQTT broker: " ++ brokerUrl) s))
  else (inl "Paho MQTT library not loaded"%string, s).
Proof.
  intros Hws Hwss Hmqtt.
  unfold connect_try, bind, run, throw, ret, parse_brokerUrl.
  destruct (Paho_defined s); [|reflexivity].
  rewrite Hws, Hwss, Hmqtt. reflexivity.
Qed.

(** C4. When the broker URL, trimmed, is not empty and starts with none
    of [ws://], [wss://], [mqtt://], and the client ID is not empty,
    [connect()] fails without the controller ever becoming connected:
    [isConnected] keeps its value (so it stays false), no client is
    created or asked to connect, the only statuses set are [connecting]
    (when Paho is loaded) and then [error], and the indicator ends at
    the error status. *)
Theorem connect_unsupported_scheme (s : State) :
  let brokerUrl := JsString.trim (brokerUrl_value (elements s)) in
  let clientId := JsString.trim (clientId_value (elements s)) in
  brokerUrl <> ""%string ->
  clientId <> ""%string ->
  JsString.startsWith brokerUrl "ws://" = false ->
  JsString.startsWith brokerUrl "wss://" = false ->
  JsString.startsWith brokerUrl "mqtt://" = false ->
  isConnected (connect s) = isConnected s
  /\ client (connect s) = client s
  /\ effects (connect s)
     = (effects s
        ++ (if Paho_defined s then [Status "connecting"; Status "error"]
            else [Status "error"]))%list
  /\ last_status (connect s) = Some "error"%string
  /\ indicates "Connection Error" false (connect s).
Proof.
  cbv zeta. intros Hurl Hid Hws Hwss Hmqtt.
  assert (Hfail : connect_failure s
                  = Some (Thrown (if Paho_defined s
                                  then "Unsupported protocol. Use ws://, wss://, or mqtt://"
                                  else "Paho MQTT library not loaded"))).
  { unfold connect_failure.
    rewrite (truthy_nonempty _ Hurl), (truthy_nonempty _ Hid). simpl negb. cbv iota.
    rewrite (connect_try_unsupported _ _ s Hws Hwss Hmqtt).
    destruct (Paho_defined s); reflexivity. }
  pose proof (connect_eq s) as Heq. cbv zeta in Heq.
  rewrite Hfail, (connect_try_unsupported _ _ s Hws Hwss Hmqtt) in Heq.
  rewrite Heq. clear Heq Hfail.
  rewrite updateConnectionStatus_isConnected, updateConnectionStatus_client,
    updateConnectionStatus_effects, updateConnectionStatus_last_status,
    addLogEntry_isConnected, addLogEntry_client, addLogEntry_effects.
  repeat split; try apply contains_remove;
    destruct (Paho_defined s); simpl snd;
    rewrite ?updateConnectionStatus_isConnected, ?updateConnectionStatus_client,
      ?updateConnectionStatus_effects, ?addLogEntry_isConnected,
      ?addLogEntry_client, ?addLogEntry_effects, <- ?app_assoc;
    reflexivity.
Qed.

(** C6, as the code has it. Every failing invocation of [connect()]
    appends its reason to the log.  When the failure is an error caught by
    the [try] block (Paho not loaded, unsupported scheme, a string that is
    not a URL, an error thrown by the Paho client), and likewise when the
    session reports failure through [onFailure], the connection status
    goes to [error].  When the broker URL or the client ID is missing,
    [connect()] returns right after logging and the connection status is
    left as it was. *)
Theorem connect_failures_reported (s : State) :
  (forall f : ConnectFailure,
      connect_failure s = Some f ->
      logged (failure_text f) (connect s)
      /\ match f with
         | Thrown _ =>
             last_status (connect s) = Some "error"%string
             /\ indicates "Connection Error" false (connect s)
         | _ =>
             effects (connect s) = effects s
             /\ statusText_textContent (elements (connect s))
                = statusText_textContent (elements s)
             /\ statusIndicator_classList (elements (connect s))
                = statusIndicator_classList (elements s)
         end)
  /\ (forall errorMessage : string,
        logged ("Connection failed: " ++ errorMessage)
          (connect_onFailure errorMessage s)
        /\ last_status (connect_onFailure errorMessage s) = Some "error"%string
        /\ indicates "Connection Error" false (connect_onFailure errorMessage s)).
Proof.
  split.
  - intros f Hf. pose proof (connect_eq s) as Heq. cbv zeta in Heq.
    rewrite Hf in Heq. rewrite Heq. clear Heq.
    destruct f as [| |message].
    + split; [apply addLogEntry_logged|].
      rewrite addLogEntry_eq. repeat split.
    + split; [apply addLogEntry_logged|].
      rewrite addLogEntry_eq. repeat split.
    + split; [apply updateConnectionStatus_logged, addLogEntry_logged|].
      split; [apply updateConnectionStatus_last_status
             | apply updateConnectionStatus_error].
  - intros errorMessage. unfold connect_onFailure. cbv zeta.
    split; [apply updateConnectionStatus_logged, addLogEntry_logged|].
    split; [apply updateConnectionStatus_last_status
           | apply updateConnectionStatus_error].
Qed.

(** *** Incoming messages *)

(** C5. When [JSON.parse] rejects the payload, [handleIncomingMessage]
    completes (the error is caught) whatever the topic, so in particular
    on the three subscribed topics, and the log ends with a new entry
    that contains the raw payload. *)
Theorem malformed_payload_logged (topic payload : string) (s : State)
    (Hbad : JSON_parse payload = None) :
  handleIncomingMessage topic payload s
  = addLogEntry ("Received on " ++ topic ++ ": " ++ payload) s
  /\ exists older entry,
      statusLog (elements (handleIncomingMessage topic payload s))
      = (older ++ [entry])%list
      /\ JsString.includes entry payload.
Proof.
  assert (Heq : handleIncomingMessage topic payload s
                = addLogEntry ("Received on " ++ topic ++ ": " ++ payload) s).
  { unfold handleIncomingMessage. rewrite Hbad. reflexivity. }
  split; [exact Heq|].
  rewrite Heq, addLogEntry_statusLog.
  destruct (log_after_last ("Received on " ++ topic ++ ": " ++ payload) s)
    as [older Holder].
  exists older. eexists. split; [exact Holder|].
  exists ("[" ++ toLocaleTimeString (new_Date (dates s)) ++ "] "
          ++ "Received on " ++ topic ++ ": ")%string, ""%string.
  rewrite string_app_empty, !string_app_assoc. simpl. reflexivity.
Qed.

(** *** [disconnect] *)

(** C9, as the code has it. After [disconnect()] returns, [isConnected]
    is false and the connection status is [disconnected]; the stored
    client handle is null when the controller was connected at the call,
    and is otherwise left as it was. *)
Theorem disconnect_resets (s : State) :
  isConnected (disconnect s) = false
  /\ last_status (disconnect s) = Some "disconnected"%string
  /\ indicates "Disconnected" false (disconnect s)
  /\ client (disconnect s) = (if isConnected s then None else client s).
Proof.
  unfold disconnect. cbv zeta.
  rewrite addLogEntry_isConnected, addLogEntry_client, updateConnectionStatus_isConnected,
    updateConnectionStatus_client.
  split; [reflexivity|].
  split; [rewrite addLogEntry_eq; apply updateConnectionStatus_last_status|].
  split; [rewrite addLogEntry_eq; apply updateConnectionStatus_disconnected|].
  destruct (client s) as [c|] eqn:Hc; destruct (isConnected s); simpl; congruence.
Qed.

(** *** Only the mutators write the motor state *)

Lemma updateConnectionStatus_motorState (st : string) (s : State) :
  motorState (updateConnectionStatus st s) = motorState s.
Proof. destruct (updateConnectionStatus_eq st s) as (cl & t & ->). reflexivity. Qed.

Lemma subscribeToTopics_motorState (s : State) :
  motorState (subscribeToTopics s) = motorState s.
Proof.
  unfold subscribeToTopics.
  destruct (client s); [destruct (isConnected s)|]; reflexivity.
Qed.

Lemma handleIncomingMessage_motorState (topic message : string) (s : State) :
  motorState (handleIncomingMessage topic message s) = motorState s.
Proof.
  unfold handleIncomingMessage. cbv zeta.
  repeat match goal with
         | |- context [match ?x with _ => _ end] => destruct x
         end;
    apply addLogEntry_motorState.
Qed.

Lemma ret_keeps {A : Type} (a : A) : keeps_motorState (ret a).
Proof. intros s. reflexivity. Qed.

Lemma throw_keeps {A : Type} (message : string) :
  keeps_motorState (throw (A := A) message).
Proof. intros s. reflexivity. Qed.

Lemma run_keeps (f : State -> State) :
  (forall s, motorState (f s) = motorState s) -> keeps_motorState (run f).
Proof. intros Hf s. apply Hf. Qed.

Lemma bind_keeps {A B : Type} (m : Try A) (k : A -> Try B) :
  keeps_motorState m -> (forall a, keeps_motorState (k a)) ->
  keeps_motorState (bind m k).
Proof.
  intros Hm Hk s. unfold bind. specialize (Hm s).
  destruct (m s) as [[e|a] s']; simpl in *; [exact Hm|].
  rewrite Hk. exact Hm.
Qed.

Lemma URL_of_keeps (a : string) : keeps_motorState (URL_of a).
Proof. unfold URL_of. destruct (new_URL a); [apply throw_keeps | apply ret_keeps]. Qed.

Lemma parse_brokerUrl_keeps (brokerUrl : string) :
  keeps_motorState (parse_brokerUrl brokerUrl).
Proof.
  unfold parse_brokerUrl.
  destruct (JsString.startsWith brokerUrl "ws://");
    [apply bind_keeps; [apply URL_of_keeps | intros; apply ret_keeps]|].
  destruct (JsString.startsWith brokerUrl "wss://");
    [apply bind_keeps; [apply URL_of_keeps | intros; apply ret_keeps]|].
  destruct (JsString.startsWith brokerUrl "mqtt://");
    [apply bind_keeps; [apply URL_of_keeps | intros; apply ret_keeps]|].
  apply throw_keeps.
Qed.

Lemma connect_try_keeps (brokerUrl clientId : string) :
  keeps_motorState (connect_try brokerUrl clientId).
Proof.
  unfold connect_try.
  apply bind_keeps;
    [intros s; destruct (Paho_defined s); reflexivity | intros _].
  apply bind_keeps; [apply run_keeps, addLogEntry_motorState | intros _].
  apply bind_keeps; [apply run_keeps, updateConnectionStatus_motorState | intros _].
  apply bind_keeps; [apply parse_brokerUrl_keeps | intros [[host port] useSSL]].
  apply bind_keeps.
  { unfold Paho_Client. destruct (Paho_Client_throws host port clientId);
      [apply throw_keeps | apply ret_keeps]. }
  intros c. apply bind_keeps; [apply run_keeps; reflexivity | intros _].
  unfold client_connect. destruct (Paho_connect_throws c useSSL);
    [apply throw_keeps | apply run_keeps; reflexivity].
Qed.

Lemma connect_try_motorState (brokerUrl clientId : string) (s : State) :
  motorState (snd (connect_try brokerUrl clientId s)) = motorState s.
Proof. apply connect_try_keeps. Qed.

Lemma connect_motorState (s : State) : motorState (connect s) = motorState s.
Proof.
  pose proof (connect_eq s) as Heq. cbv zeta in Heq. rewrite Heq.
  destruct (connect_failure s) as [[| |message]|];
    rewrite ?updateConnectionStatus_motorState, ?addLogEntry_motorState,
      ?connect_try_motorState;
    reflexivity.
Qed.

Lemma disconnect_motorState (s : State) : motorState (disconnect s) = motorState s.
Proof.
  unfold disconnect. cbv zeta.
  rewrite addLogEntry_motorState, updateConnectionStatus_motorState.
  destruct (client s); [destruct (isConnected s)|]; reflexivity.
Qed.

Lemma connect_onSuccess_motorState (s : State) :
  motorState (connect_onSuccess s) = motorState s.
Proof.
  unfold connect_onSuccess. cbv zeta.
  rewrite publishMotorState_motorState, subscribeToTopics_motorState,
    addLogEntry_motorState, updateConnectionStatus_motorState.
  reflexivity.
Qed.

Lemma setSpeed_direction (n : JsNumber.t) (s : State) :
  direction (motorState (setSpeed n s)) = direction (motorState s).
Proof.
  rewrite setSpeed_eq. cbv zeta.
  rewrite addLogEntry_motorState, publish_if_connected_motorState. reflexivity.
Qed.

(** Every event keeps the direction one of forward and reverse: with
    [constructor], the direction is valid in every state the panel runs
    through. *)
Lemma dispatch_direction_valid (ev : Event) (s : State) :
  direction_valid (motorState s) -> direction_valid (motorState (dispatch ev s)).
Proof.
  intros Hdir. unfold direction_valid.
  destruct ev; simpl dispatch.
  - destruct (isConnected s);
      [rewrite disconnect_motorState | rewrite connect_motorState]; exact Hdir.
  - rewrite setSpeed_direction. exact Hdir.
  - rewrite toggleMotor_motorState. exact Hdir.
  - rewrite toggleDirection_motorState. simpl.
    destruct (direction (motorState s) =? "forward")%string; [right|left]; reflexivity.
  - exact Hdir.
  - destruct (key =? "Enter")%string; [rewrite connect_motorState|]; exact Hdir.
  - destruct (key =? "Enter")%string; [rewrite connect_motorState|]; exact Hdir.
  - exact Hdir.
  - exact Hdir.
  - rewrite connect_onSuccess_motorState. exact Hdir.
  - unfold connect_onFailure. cbv zeta.
    rewrite updateConnectionStatus_motorState, addLogEntry_motorState. exact Hdir.
  - unfold onConnectionLost. cbv zeta.
    rewrite addLogEntry_motorState, updateConnectionStatus_motorState. exact Hdir.
  - unfold onMessageArrived. rewrite handleIncomingMessage_motorState. exact Hdir.
  - unfold subscribe_onSuccess. rewrite addLogEntry_motorState. exact Hdir.
  - unfold subscribe_onFailure. rewrite addLogEntry_motorState. exact Hdir.
Qed.

Lemma dispatch_all_direction_valid (evs : list Event) (page : Elements) (paho : bool) :
  direction_valid (motorState (dispatch_all evs (initialize (constructor page paho)))).
Proof.
  assert (Hstart : direction_valid
                     (motorState (initialize (constructor page paho)))).
  { unfold initialize. cbv zeta. rewrite addLogEntry_motorState. left. reflexivity. }
  revert Hstart. generalize (initialize (constructor page paho)).
  induction evs as [|ev evs IH]; intros s Hs; [exact Hs|].
  change (dispatch_all (ev :: evs) s) with (dispatch_all evs (dispatch ev s)).
  apply IH, dispatch_direction_valid, Hs.
Qed.

(** *** The mutators: refresh and publish *)

Lemma updateUI_displayed (s : State) :
  displayed (motorState s) (isConnected s) (elements (updateUI s)).
Proof.
  unfold displayed, updateUI. cbv zeta. simpl.
  destruct (isOn (motorState s)), (direction (motorState s) =? "forward")%string;
    repeat split;
    rewrite ?contains_add; try reflexivity;
    rewrite contains_add_other by reflexivity; apply contains_remove.
Qed.

Lemma displayed_addLogEntry (m : MotorState) (c : bool) (message : string) (s : State) :
  displayed m c (elements s) -> displayed m c (elements (addLogEntry message s)).
Proof. rewrite addLogEntry_eq. intros Hd. exact Hd. Qed.

Lemma publish_if_connected_effects (s : State) :
  effects (publish_if_connected s) = (effects s ++ published s)%list.
Proof.
  unfold publish_if_connected, publishMotorState, published.
  destruct (isConnected s), (client s); simpl; rewrite ?app_nil_r; reflexivity.
Qed.

Lemma mutate_effects (op : Mutator) (s : State) :
  effects (mutate op s)
  = (effects s ++ published (set_motorState (mutated op (motorState s)) s))%list.
Proof.
  destruct op; simpl mutate;
    [rewrite setSpeed_eq | rewrite toggleMotor_eq | rewrite toggleDirection_eq];
    cbv zeta; rewrite addLogEntry_effects, publish_if_connected_effects;
    reflexivity.
Qed.

Lemma mutate_isConnected (op : Mutator) (s : State) :
  isConnected (mutate op s) = isConnected s.
Proof.
  destruct op; simpl mutate;
    [rewrite setSpeed_eq | rewrite toggleMotor_eq | rewrite toggleDirection_eq];
    cbv zeta; rewrite addLogEntry_isConnected, publish_if_connected_isConnected;
    reflexivity.
Qed.

Lemma mutate_displayed (op : Mutator) (s : State) :
  displayed (mutated op (motorState s)) (isConnected s) (elements (mutate op s)).
Proof.
  destruct op; simpl mutate;
    [rewrite setSpeed_eq | rewrite toggleMotor_eq | rewrite toggleDirection_eq];
    cbv zeta; apply displayed_addLogEntry; rewrite publish_if_connected_elements;
    match goal with
    | |- displayed _ _ (elements (updateUI ?s0)) => exact (updateUI_displayed s0)
    end.
Qed.

(** C7, as the code has it. Each mutator ([setSpeed], [toggleMotor],
    [toggleDirection]) updates the motor state and refreshes the page
    whether or not the controller is connected, and publishes the new
    state on the motor topic exactly when [isConnected] is true and a
    client handle is stored; otherwise it calls nothing on a client. *)
Theorem mutators_refresh_and_publish (op : Mutator) (s : State) :
  motorState (mutate op s) = mutated op (motorState s)
  /\ displayed (motorState (mutate op s)) (isConnected (mutate op s))
       (elements (mutate op s))
  /\ effects (mutate op s)
     = (effects s
        ++ match client s with
           | Some c =>
               if isConnected s then
                 [ClientPublish c (motor topics)
                    (JsJSON.stringify
                       (motor_message (motorState (mutate op s))
                          (toISOString (new_Date (dates s)))))
                    0 false]
               else []
           | None => []
           end)%list.
Proof.
  rewrite mutate_motorState, mutate_isConnected, mutate_effects.
  split; [reflexivity|]. split; [apply mutate_displayed|]. reflexivity.
Qed.

(** C8. When the controller is connected (a client is stored and
    [isConnected] is true) a mutation publishes one message, on the motor
    topic, and that message is the JSON text of an object with exactly the
    four members [isOn], [speed], [direction], [timestamp], the first
    three holding the motor state as the mutation left it. *)
Theorem published_message (op : Mutator) (s : State) (c : Client)
    (Hclient : client s = Some c) (Hconnected : isConnected s = true) :
  let m := motorState (mutate op s) in
  exists timestamp : string,
    effects (mutate op s)
    = (effects s
       ++ [ClientPublish c (motor topics)
             (JsJSON.stringify
                (JObj [("isOn"%string, JBool (isOn m));
                       ("speed"%string, JNum (speed m));
                       ("direction"%string, JStr (direction m));
                       ("timestamp"%string, JStr timestamp)]))
             0 false])%list.
Proof.
  cbv zeta. exists (toISOString (new_Date (dates s))).
  rewrite mutate_motorState, mutate_effects. unfold published. simpl.
  rewrite Hclient, Hconnected. reflexivity.
Qed.

End Theorems.

(** ** The reference platform at work

    The theorems above applied to concrete pages, and the concrete runs on
    which three sentences of the specification fail as written. *)

Section Runs.

Local Existing Instance Reference.platform.

(** C2 on the freshly initialized panel. *)
Lemma toggles_are_involutions_witness :
  direction_valid (motorState Reference.start)
  /\ motorState (toggleDirection (toggleDirection Reference.start))
     = motorState Reference.start.
Proof.
  assert (Hdir : direction_valid (motorState Reference.start))
    by (left; reflexivity).
  split; [exact Hdir|].
  exact (proj2 (toggles_are_involutions Reference.start) Hdir).
Defined.

(** C3 on a full log: the oldest entry goes, the new one is last. *)
Lemma addLogEntry_caps_log_witness :
  (List.length (statusLog (elements Reference.busy)) = 50)%nat
  /\ exists oldest rest,
      statusLog (elements Reference.busy) = oldest :: rest
      /\ statusLog (elements (addLogEntry "note" Reference.busy))
         = (rest ++ ["[00:00:51] note"%string])%list.
Proof.
  assert (Hlen : (List.length (statusLog (elements Reference.busy)) = 50)%nat)
    by (vm_compute; reflexivity).
  split; [exact Hlen|].
  refine (proj1 (proj2 (addLogEntry_caps_log "note" Reference.busy _)) Hlen).
  rewrite Hlen. apply le_n.
Defined.

(** C4 on an [http] address. *)
Lemma connect_unsupported_scheme_witness :
  isConnected (connect Reference.mistyped) = isConnected Reference.mistyped
  /\ client (connect Reference.mistyped) = client Reference.mistyped
  /\ effects (connect Reference.mistyped)
     = (effects Reference.mistyped
        ++ (if Paho_defined Reference.mistyped
            then [Status "connecting"; Status "error"]
            else [Status "error"]))%list
  /\ last_status (connect Reference.mistyped) = Some "error"%string
  /\ indicates "Connection Error" false (connect Reference.mistyped).
Proof.
  apply (connect_unsupported_scheme Reference.mistyped);
    vm_compute; first [reflexivity | discriminate].
Defined.

(** C5 on a payload that is not JSON. *)
Lemma malformed_payload_logged_witness :
  JSON_parse "motor stalled" = None
  /\ exists older entry,
      statusLog (elements
                   (handleIncomingMessage "akuri/motor/status" "motor stalled"
                      Reference.connected))
      = (older ++ [entry])%list
      /\ JsString.includes entry "motor stalled".
Proof.
  assert (Hbad : JSON_parse "motor stalled" = None) by (vm_compute; reflexivity).
  split; [exact Hbad|].
  exact (proj2 (malformed_payload_logged "akuri/motor/status" "motor stalled"
                  Reference.connected Hbad)).
Defined.

(** C6, amended, on an [http] address: the reason is logged and the
    status goes to [error]. *)
Lemma connect_failures_reported_witness :
  connect_failure Reference.mistyped
  = Some (Thrown "Unsupported protocol. Use ws://, wss://, or mqtt://")
  /\ logged "Connection failed: Unsupported protocol. Use ws://, wss://, or mqtt://"
       (connect Reference.mistyped)
  /\ last_status (connect Reference.mistyped) = Some "error"%string.
Proof.
  assert (Hf : connect_failure Reference.mistyped
               = Some (Thrown "Unsupported protocol. Use ws://, wss://, or mqtt://"))
    by (vm_compute; reflexivity).
  split; [exact Hf|].
  destruct (proj1 (connect_failures_reported Reference.mistyped) _ Hf)
    as [Hlog [Hstatus _]].
  split; [exact Hlog | exact Hstatus].
Defined.

(** C6 as written fails: with no broker URL typed, [connect()] fails, logs
    the reason, and the connection status does not go to [error]. *)
Lemma connect_missing_url_keeps_status :
  connect_failure Reference.start = Some Missing_brokerUrl
  /\ last_status (connect Reference.start) <> Some "error"%string
  /\ statusText_textContent (elements (connect Reference.start))
     <> "Connection Error"%string.
Proof.
  split; [vm_compute; reflexivity|].
  split; vm_compute; discriminate.
Qed.

(** C7 as written fails: here [isConnected] is true and no mutator
    publishes, because no client handle is stored. *)
Lemma connected_without_client_no_publish :
  isConnected Reference.orphaned = true
  /\ effects (setSpeed (JsNumber.Int 40) Reference.orphaned)
     = effects Reference.orphaned
  /\ effects (toggleMotor Reference.orphaned) = effects Reference.orphaned
  /\ effects (toggleDirection Reference.orphaned) = effects Reference.orphaned.
Proof.
  split; [vm_compute; reflexivity|].
  split; [vm_compute; reflexivity|].
  split; vm_compute; reflexivity.
Qed.

(** C8 on a connected panel. *)
Lemma published_message_witness :
  exists timestamp : string,
    effects (mutate ToggleMotor Reference.connected)
    = (effects Reference.connected
       ++ [ClientPublish
             {| client_host := "broker.example";
                client_port := JsNumber.Int 9001;
                client_id := "panel" |}
             (motor topics)
             (JsJSON.stringify
                (JObj [("isOn"%string, JBool true);
                       ("speed"%string, JNum (JsNumber.Int 0));
                       ("direction"%string, JStr "forward");
                       ("timestamp"%string, JStr timestamp)]))
             0 false])%list.
Proof.
  exact (published_message ToggleMotor Reference.connected
           {| client_host := "broker.example";
              client_port := JsNumber.Int 9001;
              client_id := "panel" |}
           eq_refl eq_refl).
Defined.

(** C9 as written fails: while a session is still being opened,
    [disconnect()] keeps the client handle. *)
Lemma disconnect_keeps_pending_client :
  client (disconnect Reference.pending)
  = Some {| client_host := "broker.example";
            client_port := JsNumber.Int 9001;
            client_id := "panel" |}.
Proof. vm_compute. reflexivity. Qed.

(** C10 on a run of the three mutators. *)
Lemma motor_state_invariant_witness :
  motorState Reference.start = initial_motorState
  /\ direction_valid
       (motorState
          (mutate_all [SetSpeed 250; ToggleDirection; ToggleMotor; SetSpeed (-3)]
             Reference.start))
  /\ speed_in_range
       (motorState
          (mutate_all [SetSpeed 250; ToggleDirection; ToggleMotor; SetSpeed (-3)]
             Reference.start)).
Proof.
  assert (Hinit : motorState Reference.start = initial_motorState)
    by reflexivity.
  split; [exact Hinit|].
  exact (motor_state_invariant
           [SetSpeed 250; ToggleDirection; ToggleMotor; SetSpeed (-3)]
           Reference.start Hinit).
Defined.

End Runs.

(** ** Beyond the claims: invariants, edge cases and compositions *)

Section Extras.

Context {P : Platform}.

(** *** Invariants through the [try] block and through events *)

Lemma ret_preserves {A : Type} (I : State -> Prop) (a : A) :
  try_preserves I (ret a).
Proof. intros s Hs. exact Hs. Qed.

Lemma throw_preserves {A : Type} (I : State -> Prop) (message : string) :
  try_preserves I (throw (A := A) message).
Proof. intros s Hs. exact Hs. Qed.

Lemma run_preserves (I : State -> Prop) (f : State -> State) :
  preserves I f -> try_preserves I (run f).
Proof. intros Hf s Hs. apply Hf, Hs. Qed.

Lemma bind_preserves {A B : Type} (I : State -> Prop) (m : Try A) (k : A -> Try B) :
  try_preserves I m -> (forall a, try_preserves I (k a)) ->
  try_preserves I (bind m k).
Proof.
  intros Hm Hk s Hs. unfold bind. specialize (Hm s Hs).
  destruct (m s) as [[e|a] s']; simpl in *; [exact Hm|].
  apply Hk, Hm.
Qed.

Lemma parse_brokerUrl_preserves (I : State -> Prop) (brokerUrl : string) :
  try_preserves I (parse_brokerUrl brokerUrl).
Proof.
  assert (Hurl : forall a, try_preserves I (URL_of a)).
  { intros a. unfold URL_of.
    destruct (new_URL a); [apply throw_preserves | apply ret_preserves]. }
  unfold parse_brokerUrl.
  repeat match goal with
         | |- try_preserves _ (if ?b then _ else _) => destruct b
         | |- try_preserves _ (bind _ _) => apply bind_preserves; [apply Hurl | intros u]
         | |- try_preserves _ (ret _) => apply ret_preserves
         | |- try_preserves _ (throw _) => apply throw_preserves
         end.
Qed.

Lemma Stable_connect (I : State -> Prop) : Stable I -> StableConnect I.
Proof. intros HI. split; apply HI. Qed.

Lemma connect_try_preserves (I : State -> Prop) (brokerUrl clientId : string) :
  StableConnect I -> try_preserves I (connect_try brokerUrl clientId).
Proof.
  intros HI. unfold connect_try.
  apply bind_preserves;
    [intros s Hs; destruct (Paho_defined s); exact Hs | intros _].
  apply bind_preserves; [apply run_preserves, HI | intros _].
  apply bind_preserves; [apply run_preserves, HI | intros _].
  apply bind_preserves;
    [apply parse_brokerUrl_preserves | intros [[host port] useSSL]].
  apply bind_preserves.
  { unfold Paho_Client. destruct (Paho_Client_throws host port clientId);
      [apply throw_preserves | apply ret_preserves]. }
  intros c. apply bind_preserves; [apply run_preserves, HI | intros _].
  unfold client_connect. destruct (Paho_connect_throws c useSSL);
    [apply throw_preserves | apply run_preserves, HI].
Qed.

Lemma connect_preserves (I : State -> Prop) : StableConnect I -> preserves I connect.
Proof.
  intros HI s Hs. unfold connect.
  destruct (negb (JsString.truthy (JsString.trim (brokerUrl_value (elements s)))));
    [apply HI, Hs|].
  destruct (negb (JsString.truthy (JsString.trim (clientId_value (elements s)))));
    [apply HI, Hs|].
  pose proof (connect_try_preserves I
                (JsString.trim (brokerUrl_value (elements s)))
                (JsString.trim (clientId_value (elements s))) HI s Hs) as Htry.
  destruct (connect_try _ _ s) as [[message|u] s']; simpl in Htry; [|exact Htry].
  apply HI, HI, Htry.
Qed.

Lemma disconnect_preserves (I : State -> Prop) : Stable I -> preserves I disconnect.
Proof.
  intros HI s Hs. unfold disconnect. cbv zeta.
  apply HI, HI, HI.
  destruct (client s) as [c|]; [destruct (isConnected s)|]; try exact Hs.
  apply HI, HI, Hs.
Qed.

Lemma handleIncomingMessage_preserves (I : State -> Prop) (topic message : string) :
  Stable I -> preserves I (handleIncomingMessage topic message).
Proof.
  intros HI s Hs. unfold handleIncomingMessage. cbv zeta.
  repeat match goal with
         | |- context [match ?x with _ => _ end] => destruct x
         end;
    apply HI, Hs.
Qed.

Lemma mutate_preserves (I : State -> Prop) (op : Mutator) :
  Stable I -> preserves I (mutate op).
Proof.
  intros HI s Hs.
  assert (Hpub : forall s', I s' -> I (publish_if_connected s')).
  { intros s' Hs'. unfold publish_if_connected.
    destruct (isConnected s'); [apply HI|]; exact Hs'. }
  destruct op; simpl mutate;
    [rewrite setSpeed_eq | rewrite toggleMotor_eq | rewrite toggleDirection_eq];
    cbv zeta; apply HI, Hpub, HI, HI, Hs.
Qed.

Lemma setSpeed_preserves (I : State -> Prop) (n : JsNumber.t) :
  Stable I -> preserves I (setSpeed n).
Proof.
  intros HI s Hs. rewrite setSpeed_eq. cbv zeta.
  apply HI. unfold publish_if_connected.
  match goal with |- I (if ?b then _ else _) => destruct b end;
    [apply HI|]; apply HI, HI, Hs.
Qed.

(** Every event but the session's success callback keeps a stable
    property; the callback does too when writing [isConnected = true]
    keeps it. *)
Lemma dispatch_preserves (I : State -> Prop) (ev : Event) :
  Stable I ->
  ev <> Connect_succeeded \/ preserves I (set_isConnected true) ->
  preserves I (dispatch ev).
Proof.
  intros HI Hev s Hs.
  destruct ev; simpl dispatch.
  - destruct (isConnected s);
      [apply disconnect_preserves | apply connect_preserves; [apply Stable_connect|]];
      assumption.
  - apply setSpeed_preserves; assumption.
  - apply (mutate_preserves I ToggleMotor); assumption.
  - apply (mutate_preserves I ToggleDirection); assumption.
  - apply HI, Hs.
  - destruct (key =? "Enter")%string;
      [apply connect_preserves; [apply Stable_connect|]|]; assumption.
  - destruct (key =? "Enter")%string;
      [apply connect_preserves; [apply Stable_connect|]|]; assumption.
  - apply HI, Hs.
  - apply HI, Hs.
  - destruct Hev as [Hev|Htrue]; [congruence|].
    unfold connect_onSuccess. cbv zeta. apply HI, HI, HI, HI, Htrue, Hs.
  - unfold connect_onFailure. cbv zeta. apply HI, HI, Hs.
  - unfold onConnectionLost. cbv zeta. apply HI, HI, HI, Hs.
  - apply handleIncomingMessage_preserves; assumption.
  - apply HI, Hs.
  - apply HI, Hs.
Qed.

Lemma dispatch_all_preserves (I : State -> Prop) (evs : list Event) :
  Stable I -> preserves I (set_isConnected true) -> preserves I (dispatch_all evs).
Proof.
  intros HI Htrue. induction evs as [|ev evs IH]; intros s Hs; [exact Hs|].
  change (dispatch_all (ev :: evs) s) with (dispatch_all evs (dispatch ev s)).
  apply IH, dispatch_preserves; auto.
Qed.

(** *** The log pane *)

Lemma subscribeToTopics_elements (s : State) :
  elements (subscribeToTopics s) = elements s.
Proof.
  unfold subscribeToTopics.
  destruct (client s); [destruct (isConnected s)|]; reflexivity.
Qed.

Lemma addLogEntry_within_cap (message : string) :
  preserves log_within_cap (addLogEntry message).
Proof.
  intros s Hs. unfold log_within_cap in *. rewrite addLogEntry_statusLog.
  destruct (Nat.lt_ge_cases (List.length (statusLog (elements s))) 50) as [Hlt|Hge].
  - rewrite log_after_short by exact Hlt. rewrite length_app. simpl. lia.
  - rewrite log_after_full by exact Hge. rewrite length_app.
    destruct (statusLog (elements s)); simpl in *; lia.
Qed.

Lemma log_within_cap_stable : Stable log_within_cap.
Proof.
  split; try (intros; intros s Hs; exact Hs).
  - apply addLogEntry_within_cap.
  - intros st s Hs. unfold log_within_cap.
    rewrite updateConnectionStatus_statusLog. exact Hs.
  - intros s Hs. unfold log_within_cap.
    rewrite publishMotorState_elements. exact Hs.
  - intros s Hs. unfold log_within_cap.
    rewrite subscribeToTopics_elements. exact Hs.
  - intros s Hs. unfold log_within_cap. simpl. lia.
Qed.

(** X1. Once the log pane holds at most 50 entries it does so for good:
    no user action and no Paho callback, in any order, takes it above 50. *)
Theorem log_never_exceeds_cap (evs : list Event) (s : State)
    (Hcap : log_within_cap s) :
  log_within_cap (dispatch_all evs s).
Proof.
  apply dispatch_all_preserves;
    [apply log_within_cap_stable | intros s' Hs'; exact Hs' | exact Hcap].
Qed.

(** X2. A log pane that already holds 50 entries or more is never
    trimmed back: [addLogEntry] drops the single oldest entry, puts the
    new one last, and the number of entries stays what it was. *)
Theorem addLogEntry_full_keeps_length (message : string) (s : State)
    (Hfull : (50 <= List.length (statusLog (elements s)))%nat) :
  statusLog (elements (addLogEntry message s))
  = (tl (statusLog (elements s))
     ++ [("[" ++ toLocaleTimeString (new_Date (dates s)) ++ "] " ++ message)%string])%list
  /\ List.length (statusLog (elements (addLogEntry message s)))
     = List.length (statusLog (elements s)).
Proof.
  rewrite addLogEntry_statusLog, log_after_full by exact Hfull.
  split; [reflexivity|]. rewrite length_app.
  destruct (statusLog (elements s)); simpl in *; lia.
Qed.

(** *** What the controller asks of Paho *)

Lemma subscribeToTopics_effects (s : State) :
  effects (subscribeToTopics s)
  = (effects s
     ++ match client s with
        | Some c =>
            if isConnected s
            then map (ClientSubscribe c) (Object_values topics)
            else []
        | None => []
        end)%list.
Proof.
  unfold subscribeToTopics.
  destruct (client s) as [c|]; [destruct (isConnected s)|];
    simpl; rewrite <- ?app_assoc, ?app_nil_r; reflexivity.
Qed.

Lemma publishMotorState_effects (s : State) :
  effects (publishMotorState s) = (effects s ++ published s)%list.
Proof.
  unfold publishMotorState, published.
  destruct (client s) as [c|]; [destruct (isConnected s)|];
    simpl; rewrite ?app_nil_r; reflexivity.
Qed.

Lemma published_expected (s : State) : Forall effect_expected (published s).
Proof.
  unfold published.
  destruct (client s) as [c|]; [destruct (isConnected s)|]; repeat constructor.
Qed.

Lemma effects_expected_stable :
  Stable (fun s => Forall effect_expected (effects s)).
Proof.
  split; try (intros; intros s Hs; exact Hs).
  - intros message s Hs. rewrite addLogEntry_effects. exact Hs.
  - intros st s Hs. rewrite updateConnectionStatus_effects.
    apply Forall_app. split; [exact Hs | repeat constructor].
  - intros s Hs. rewrite publishMotorState_effects.
    apply Forall_app. split; [exact Hs | apply published_expected].
  - intros s Hs. rewrite subscribeToTopics_effects.
    apply Forall_app. split; [exact Hs|].
    destruct (client s) as [c|]; [destruct (isConnected s)|];
      simpl map; repeat (apply Forall_cons; [simpl; auto|]); constructor.
  - intros c useSSL s Hs. simpl. apply Forall_app.
    split; [exact Hs | repeat constructor].
  - intros c s Hs. simpl. apply Forall_app.
    split; [exact Hs | repeat constructor].
Qed.

(** X3. Whatever the user does and whatever Paho calls back, from a fresh
    controller on, every publication goes to the motor topic with quality
    of service 0 and no retain flag, every subscription is to one of the
    three fixed topics, and every session is opened with a 10 second
    timeout, a 60 second keep-alive and a clean session. *)
Theorem client_calls_as_expected (evs : list Event) (page : Elements) (paho : bool) :
  Forall effect_expected
    (effects (dispatch_all evs (initialize (constructor page paho)))).
Proof.
  apply (dispatch_all_preserves (fun s => Forall effect_expected (effects s)));
    [apply effects_expected_stable | intros s Hs; exact Hs |].
  unfold initialize. cbv zeta. rewrite addLogEntry_effects. constructor.
Qed.

(** *** The connection flag *)

Lemma subscribeToTopics_isConnected (s : State) :
  isConnected (subscribeToTopics s) = isConnected s.
Proof.
  unfold subscribeToTopics.
  destruct (client s); [destruct (isConnected s) eqn:E|]; simpl; congruence.
Qed.

Lemma isConnected_stable (b : bool) :
  Stable (fun s => isConnected s = true -> b = true).
Proof.
  split; try (intros; intros s Hs; exact Hs).
  - intros message s Hs. rewrite addLogEntry_isConnected. exact Hs.
  - intros st s Hs. rewrite updateConnectionStatus_isConnected. exact Hs.
  - intros s Hs. simpl. discriminate.
  - intros s Hs. rewrite publishMotorState_isConnected. exact Hs.
  - intros s Hs. rewrite subscribeToTopics_isConnected. exact Hs.
Qed.

(** X4. Only the success callback of a session turns [isConnected] on:
    after any other event the flag is true only if it was true before. *)
Theorem only_success_sets_isConnected (ev : Event) (s : State)
    (Hev : ev <> Connect_succeeded) :
  isConnected (dispatch ev s) = true -> isConnected s = true.
Proof.
  apply (dispatch_preserves (fun s' => isConnected s' = true -> isConnected s = true));
    [apply isConnected_stable | left; exact Hev | trivial].
Qed.

Lemma connect_isConnected (s : State) : isConnected (connect s) = isConnected s.
Proof.
  apply (connect_preserves (fun s' => isConnected s' = isConnected s));
    [|reflexivity].
  split.
  - intros message s' Hs'. rewrite addLogEntry_isConnected. exact Hs'.
  - intros st s' Hs'. rewrite updateConnectionStatus_isConnected. exact Hs'.
  - intros c s' Hs'. exact Hs'.
  - intros c useSSL s' Hs'. exact Hs'.
Qed.

(** X5. Right after a click on the connect button the controller is not
    connected: the click disconnects a connected controller, and on a
    disconnected one it only starts a session (or fails to), which never
    sets the flag by itself. *)
Theorem click_connectButton_not_connected (s : State) :
  isConnected (dispatch Click_connectButton s) = false.
Proof.
  simpl dispatch. destruct (isConnected s) eqn:E.
  - unfold disconnect. cbv zeta.
    rewrite addLogEntry_isConnected, updateConnectionStatus_isConnected.
    reflexivity.
  - rewrite connect_isConnected. exact E.
Qed.

(** *** [connect], beyond its failures *)

Lemma connect_effects_only (s : State) :
  exists new,
    effects (connect s) = (effects s ++ new)%list /\ Forall connect_effect new.
Proof.
  apply (connect_preserves
           (fun s' => exists new,
                effects s' = (effects s ++ new)%list /\ Forall connect_effect new)).
  - split.
    + intros message s' Hs'. rewrite addLogEntry_effects. exact Hs'.
    + intros st s' (new & Heq & Hnew). rewrite updateConnectionStatus_effects, Heq.
      exists (new ++ [Status st])%list. rewrite app_assoc. split; [reflexivity|].
      apply Forall_app. split; [exact Hnew | repeat constructor].
    + intros c s' Hs'. exact Hs'.
    + intros c useSSL s' (new & Heq & Hnew). simpl. rewrite Heq.
      exists (new ++ [ClientConnect c useSSL 10 60 true])%list.
      rewrite app_assoc. split; [reflexivity|].
      apply Forall_app. split; [exact Hnew | repeat constructor].
  - exists []. rewrite app_nil_r. split; [reflexivity | constructor].
Qed.

(** X6. [connect()] by itself never marks the controller connected and
    never touches the motor state; the only things it does outside the
    page are status updates and the request to open a session.  It never
    publishes, subscribes or disconnects, also when a client from an
    earlier call is still stored. *)
Theorem connect_only_opens (s : State) :
  isConnected (connect s) = isConnected s
  /\ motorState (connect s) = motorState s
  /\ exists new,
      effects (connect s) = (effects s ++ new)%list /\ Forall connect_effect new.
Proof.
  split; [apply connect_isConnected|].
  split; [apply connect_motorState | apply connect_effects_only].
Qed.

Lemma or_else_default (a : JsNumber.t) (d : Z) :
  d <> 0 ->
  JsNumber.or_else a (JsNumber.Int d) <> JsNumber.NaN
  /\ JsNumber.or_else a (JsNumber.Int d) <> JsNumber.Int 0.
Proof.
  intros Hd. destruct a as [|[|p|p]|b]; simpl; split; congruence.
Qed.

Lemma scheme_defaults_port (brokerUrl : string) (port0 : Z) (useSSL : bool) :
  scheme_defaults brokerUrl = Some (port0, useSSL) ->
  (port0 = 8000 /\ useSSL = false) \/ (port0 = 8884 /\ useSSL = true)
  \/ (port0 = 1883 /\ useSSL = false).
Proof.
  unfold scheme_defaults.
  destruct (JsString.startsWith brokerUrl "ws://");
    [intros [= <- <-]; auto|].
  destruct (JsString.startsWith brokerUrl "wss://");
    [intros [= <- <-]; auto|].
  destruct (JsString.startsWith brokerUrl "mqtt://");
    [intros [= <- <-]; auto | discriminate].
Qed.

Lemma ws_is_not_wss (a : string) :
  JsString.startsWith a "ws://" = true -> JsString.startsWith a "wss://" = false.
Proof.
  unfold JsString.startsWith.
  destruct a as [|a1 [|a2 [|a3 r]]]; cbn [String.prefix]; try discriminate;
    repeat match goal with
           | |- context [Ascii.ascii_dec ?x ?y] => destruct (Ascii.ascii_dec x y)
           end;
    subst; try discriminate; reflexivity.
Qed.

Lemma parse_brokerUrl_success (brokerUrl : string) (u : URL) (port0 : Z)
    (useSSL : bool) (s : State) :
  scheme_defaults brokerUrl = Some (port0, useSSL) ->
  new_URL brokerUrl = inr u ->
  parse_brokerUrl brokerUrl s
  = (inr (hostname u,
          JsNumber.or_else (JsNumber.parseInt (port u)) (JsNumber.Int port0),
          useSSL), s).
Proof.
  unfold scheme_defaults, parse_brokerUrl, bind, URL_of, ret. intros Hscheme Hurl.
  destruct (JsString.startsWith brokerUrl "ws://");
    [injection Hscheme as <- <-; rewrite Hurl; reflexivity|].
  destruct (JsString.startsWith brokerUrl "wss://");
    [injection Hscheme as <- <-; rewrite Hurl; reflexivity|].
  destruct (JsString.startsWith brokerUrl "mqtt://");
    [injection Hscheme as <- <-; rewrite Hurl; reflexivity | discriminate].
Qed.

(** X7. With Paho loaded, a broker URL of one of the three schemes that
    parses as a URL, a client ID, and a Paho client that accepts them,
    [connect()] stores a new client for the URL's host and opens a session
    on it: TLS only for [wss://], and as port the URL's, or 8000, 8884,
    1883 for [ws], [wss], [mqtt] when the URL names none or names 0.  The
    port handed to Paho is never 0 and never [NaN].  The status goes to
    [connecting], and the attempt is logged. *)
Theorem connect_opens_session (s : State) (u : URL) (port0 : Z) (useSSL : bool) :
  let brokerUrl := JsString.trim (brokerUrl_value (elements s)) in
  let clientId := JsString.trim (clientId_value (elements s)) in
  let c :=
    {| client_host := hostname u;
       client_port :=
         JsNumber.or_else (JsNumber.parseInt (port u)) (JsNumber.Int port0);
       client_id := clientId |} in
  Paho_defined s = true ->
  brokerUrl <> ""%string ->
  clientId <> ""%string ->
  scheme_defaults brokerUrl = Some (port0, useSSL) ->
  new_URL brokerUrl = inr u ->
  Paho_Client_throws (client_host c) (client_port c) clientId = None ->
  Paho_connect_throws c useSSL = None ->
  client (connect s) = Some c
  /\ effects (connect s)
     = (effects s ++ [Status "connecting"; ClientConnect c useSSL 10 60 true])%list
  /\ indicates "Connecting..." false (connect s)
  /\ logged ("Connecting to MQTT broker: " ++ brokerUrl) (connect s)
  /\ (client_port c <> JsNumber.NaN /\ client_port c <> JsNumber.Int 0)
  /\ (useSSL = true <-> JsString.startsWith brokerUrl "wss://" = true).
Proof.
  cbv zeta. intros Hpaho Hurl Hid Hscheme Hu Hnew Hopen.
  assert (Hconnect :
            connect s
            = emit (ClientConnect
                      {| client_host := hostname u;
                         client_port :=
                           JsNumber.or_else (JsNumber.parseInt (port u))
                             (JsNumber.Int port0);
                         client_id := JsString.trim (clientId_value (elements s)) |}
                      useSSL 10 60 true)
                (set_client
                   (Some {| client_host := hostname u;
                            client_port :=
                              JsNumber.or_else (JsNumber.parseInt (port u))
                                (JsNumber.Int port0);
                            client_id :=
                              JsString.trim (clientId_value (elements s)) |})
                   (updateConnectionStatus "connecting"
                      (addLogEntry
                         ("Connecting to MQTT broker: "
                          ++ JsString.trim (brokerUrl_value (elements s))) s)))).
  { unfold connect.
    rewrite (truthy_nonempty _ Hurl), (truthy_nonempty _ Hid). simpl negb. cbv iota.
    unfold connect_try, bind, run. rewrite Hpaho. unfold ret at 1.
    rewrite (parse_brokerUrl_success _ u port0 useSSL _ Hscheme Hu).
    unfold Paho_Client. simpl in Hnew. rewrite Hnew. unfold ret.
    unfold client_connect. rewrite Hopen. reflexivity. }
  rewrite Hconnect. clear Hconnect.
  split; [reflexivity|].
  split.
  { unfold emit, set_client. cbn [effects].
    rewrite updateConnectionStatus_effects, addLogEntry_effects, <- app_assoc.
    reflexivity. }
  split; [split; [reflexivity | apply contains_remove]|].
  split; [apply (updateConnectionStatus_logged _ "connecting"), addLogEntry_logged|].
  split.
  - apply or_else_default.
    destruct (scheme_defaults_port _ _ _ Hscheme) as [[-> _]|[[-> _]|[-> _]]];
      discriminate.
  - revert Hscheme. unfold scheme_defaults.
    destruct (JsString.startsWith _ "ws://") eqn:Hws.
    { intros [= <- <-]. rewrite (ws_is_not_wss _ Hws). split; discriminate. }
    destruct (JsString.startsWith _ "wss://") eqn:Hwss;
      [intros [= <- <-]; split; reflexivity|].
    destruct (JsString.startsWith _ "mqtt://");
      [intros [= <- <-]; split; discriminate | discriminate].
Qed.

(** *** The session callbacks *)

Lemma subscribeToTopics_client (s : State) :
  client (subscribeToTopics s) = client s.
Proof.
  unfold subscribeToTopics.
  destruct (client s) eqn:E; [destruct (isConnected s)|]; simpl; congruence.
Qed.

Lemma subscribeToTopics_dates (s : State) :
  dates (subscribeToTopics s) = dates s.
Proof.
  unfold subscribeToTopics.
  destruct (client s); [destruct (isConnected s)|]; reflexivity.
Qed.

Lemma addLogEntry_dates (message : string) (s : State) :
  dates (addLogEntry message s) = S (dates s).
Proof. rewrite addLogEntry_eq. reflexivity. Qed.

Lemma updateConnectionStatus_dates (st : string) (s : State) :
  dates (updateConnectionStatus st s) = dates s.
Proof. destruct (updateConnectionStatus_eq st s) as (cl & t & ->). reflexivity. Qed.

Lemma updateConnectionStatus_connected (s : State) :
  indicates "Connected" true (updateConnectionStatus "connected" s).
Proof. split; [reflexivity | apply contains_add]. Qed.

(** X8. When the session comes up, [isConnected] becomes true, the
    status goes to [connected] and the success is logged.  If a client
    handle is stored, the controller subscribes to the motor, status and
    log topics, in that order, and then publishes the current motor
    state; if the handle has been discarded meanwhile it calls nothing. *)
Theorem connect_onSuccess_subscribes_and_publishes (s : State) :
  let s' := connect_onSuccess s in
  isConnected s' = true
  /\ motorState s' = motorState s
  /\ indicates "Connected" true s'
  /\ logged "Successfully connected to MQTT broker" s'
  /\ effects s'
     = (effects s
        ++ Status "connected"
           :: match client s with
              | Some c =>
                  [ClientSubscribe c (motor topics);
                   ClientSubscribe c (status topics);
                   ClientSubscribe c (log topics);
                   ClientPublish c (motor topics)
                     (JsJSON.stringify
                        (motor_message (motorState s)
                           (toISOString (new_Date (S (dates s))))))
                     0 false]
              | None => []
              end)%list.
Proof.
  cbv zeta. unfold connect_onSuccess. cbv zeta.
  set (s1 := addLogEntry "Successfully connected to MQTT broker"
               (updateConnectionStatus "connected" (set_isConnected true s))).
  assert (H1c : isConnected s1 = true).
  { unfold s1. rewrite addLogEntry_isConnected, updateConnectionStatus_isConnected.
    reflexivity. }
  assert (H1k : client s1 = client s).
  { unfold s1. rewrite addLogEntry_client, updateConnectionStatus_client.
    reflexivity. }
  assert (H1m : motorState s1 = motorState s).
  { unfold s1. rewrite addLogEntry_motorState, updateConnectionStatus_motorState.
    reflexivity. }
  assert (H1e : effects s1 = (effects s ++ [Status "connected"])%list).
  { unfold s1. rewrite addLogEntry_effects, updateConnectionStatus_effects.
    reflexivity. }
  assert (H1d : dates s1 = S (dates s)).
  { unfold s1. rewrite addLogEntry_dates, updateConnectionStatus_dates.
    reflexivity. }
  split; [rewrite publishMotorState_isConnected, subscribeToTopics_isConnected;
          exact H1c|].
  split; [rewrite publishMotorState_motorState, subscribeToTopics_motorState;
          exact H1m|].
  split.
  { unfold indicates.
    rewrite publishMotorState_elements, subscribeToTopics_elements.
    unfold s1. rewrite addLogEntry_eq.
    exact (updateConnectionStatus_connected (set_isConnected true s)). }
  split.
  { unfold logged.
    rewrite publishMotorState_elements, subscribeToTopics_elements.
    apply addLogEntry_logged. }
  rewrite publishMotorState_effects, subscribeToTopics_effects, H1e.
  unfold published.
  rewrite subscribeToTopics_client, subscribeToTopics_isConnected,
    subscribeToTopics_motorState, subscribeToTopics_dates, H1k, H1c, H1m, H1d.
  destruct (client s) as [c|]; rewrite <- !app_assoc; reflexivity.
Qed.

(** X9. A lost connection clears [isConnected], shows the status
    [disconnected] and logs the reason, but keeps the client handle and
    calls nothing on it; the motor state is untouched. *)
Theorem onConnectionLost_keeps_client (errorMessage : string) (s : State) :
  let s' := onConnectionLost errorMessage s in
  isConnected s' = false
  /\ client s' = client s
  /\ motorState s' = motorState s
  /\ effects s' = (effects s ++ [Status "disconnected"])%list
  /\ indicates "Disconnected" false s'
  /\ logged ("Connection lost: " ++ errorMessage) s'.
Proof.
  cbv zeta. unfold onConnectionLost. cbv zeta.
  rewrite addLogEntry_isConnected, addLogEntry_client, addLogEntry_motorState,
    addLogEntry_effects, updateConnectionStatus_isConnected,
    updateConnectionStatus_client, updateConnectionStatus_motorState,
    updateConnectionStatus_effects.
  split; [reflexivity|]. split; [reflexivity|]. split; [reflexivity|].
  split; [reflexivity|].
  split; [|apply addLogEntry_logged].
  rewrite addLogEntry_eq.
  exact (updateConnectionStatus_disconnected (set_isConnected false s)).
Qed.

(** X10. [disconnect()] asks Paho to disconnect exactly when a client is
    stored and [isConnected] is true; in every case, also on a controller
    that never connected, it sets the status [disconnected] and logs
    ["Disconnected from MQTT broker"]. *)
Theorem disconnect_effects (s : State) :
  effects (disconnect s)
  = (effects s
     ++ match client s with
        | Some c => if isConnected s then [ClientDisconnect c] else []
        | None => []
        end
     ++ [Status "disconnected"])%list
  /\ logged "Disconnected from MQTT broker" (disconnect s)
  /\ motorState (disconnect s) = motorState s.
Proof.
  split; [|split; [apply addLogEntry_logged | apply disconnect_motorState]].
  unfold disconnect. cbv zeta.
  rewrite addLogEntry_effects, updateConnectionStatus_effects.
  destruct (client s) as [c|]; [destruct (isConnected s)|];
    simpl; rewrite <- ?app_assoc; reflexivity.
Qed.

(** *** Incoming messages *)

Lemma handleIncomingMessage_is_log (topic message : string) (s : State) :
  exists text, handleIncomingMessage topic message s = addLogEntry text s.
Proof.
  unfold handleIncomingMessage. cbv zeta.
  repeat match goal with
         | |- context [match ?x with _ => _ end] => destruct x
         end;
    eexists; reflexivity.
Qed.

(** X11. An incoming message only ever adds one line to the log: the
    motor state, the connection flag, the client handle and every other
    element of the page stay as they are, and nothing is sent back.  In
    particular the controller's own publications, which come back on the
    motor topic it subscribes to, do not feed into the motor state; on
    that topic, as on any topic other than status and log, the line is the
    raw payload even when it is valid JSON. *)
Theorem incoming_message_only_logs (topic message : string) (s : State) :
  let s' := handleIncomingMessage topic message s in
  motorState s' = motorState s
  /\ isConnected s' = isConnected s
  /\ client s' = client s
  /\ effects s' = effects s
  /\ (exists text, elements s' = elements (addLogEntry text s))
  /\ ((topic =? status topics)%string = false ->
      (topic =? log topics)%string = false ->
      s' = addLogEntry ("Received on " ++ topic ++ ": " ++ message) s).
Proof.
  cbv zeta. destruct (handleIncomingMessage_is_log topic message s) as [text Heq].
  rewrite Heq, addLogEntry_motorState, addLogEntry_isConnected, addLogEntry_client,
    addLogEntry_effects.
  repeat split. { exists text. reflexivity. }
  intros Hstatus Hlog. rewrite <- Heq. unfold handleIncomingMessage. cbv zeta.
  rewrite Hstatus, Hlog. destruct (JSON_parse message); reflexivity.
Qed.

(** X12. A message on the status topic (or the log topic) that parses
    and whose [message] member can be read is logged as
    ["Status update: ..."] (or ["Motor log: ..."]) with that member's text;
    if it parses but reading [message] throws, the raw payload is logged,
    as for a payload that is not JSON. *)
Theorem incoming_message_routing (topic payload : string) (s : State)
    (data : Parsed) (Hparse : JSON_parse payload = Some data)
    (Htopic : topic = status topics \/ topic = log topics) :
  logged
    (match message_text data with
     | Some text =>
         (if (topic =? status topics)%string then "Status update: " else "Motor log: ")
         ++ text
     | None => "Received on " ++ topic ++ ": " ++ payload
     end)
    (handleIncomingMessage topic payload s).
Proof.
  unfold handleIncomingMessage. cbv zeta. rewrite Hparse.
  destruct Htopic as [-> | ->]; simpl String.eqb; cbv iota;
    destruct (message_text data); apply addLogEntry_logged.
Qed.

(** *** Refreshing the page *)

Lemma remove_absent (c : string) (l : list string) :
  ClassList.contains l c = false -> ClassList.remove c l = l.
Proof.
  unfold ClassList.contains, ClassList.remove.
  induction l as [|x l IH]; simpl; [reflexivity|].
  destruct (String.eqb c x); simpl; [discriminate|].
  intros Hl. rewrite IH by exact Hl. reflexivity.
Qed.

Lemma add_present (c : string) (l : list string) :
  ClassList.contains l c = true -> ClassList.add c l = l.
Proof. intros Hl. unfold ClassList.add. rewrite Hl. reflexivity. Qed.

Lemma swap_class_twice (c d : string) (l : list string) :
  (d =? c)%string = false ->
  ClassList.add c (ClassList.remove d (ClassList.add c (ClassList.remove d l)))
  = ClassList.add c (ClassList.remove d l).
Proof.
  intros Hdc.
  rewrite (remove_absent d (ClassList.add c (ClassList.remove d l))).
  - apply add_present, contains_add.
  - rewrite contains_add_other by exact Hdc. apply contains_remove.
Qed.

(** X13. Refreshing the page twice is the same as refreshing it once:
    [updateUI] writes the page from the fields alone and its class-list
    edits (remove one of two classes, add the other) settle at once. *)
Theorem updateUI_idempotent (s : State) : updateUI (updateUI s) = updateUI s.
Proof.
  unfold updateUI. cbv zeta. unfold set_elements.
  cbn [elements motorState isConnected client Paho_defined dates effects
       statusIndicator_classList statusText_textContent connectButton_textContent
       connectButton_background brokerUrl_value clientId_value speedSlider_value
       speedValue_textContent powerButton_classList powerButton_text
       powerStatus_textContent directionButton_classList directionButton_text
       directionButton_icon directionStatus_textContent statusLog].
  destruct (isOn (motorState s)), (direction (motorState s) =? "forward")%string;
    rewrite !swap_class_twice by reflexivity; reflexivity.
Qed.

(** X14. On any page, [new MotorController()] followed by [initialize()]
    gives a controller that is off, at speed 0, forward, not connected,
    without a client and with nothing asked of Paho; the page shows that
    state and the log ends with the initialization line. *)
Theorem initialize_shows_initial_state (page : Elements) (paho : bool) :
  let s := initialize (constructor page paho) in
  motorState s = initial_motorState
  /\ isConnected s = false
  /\ client s = None
  /\ effects s = []
  /\ displayed initial_motorState false (elements s)
  /\ logged "Motor Control Panel initialized" s.
Proof.
  cbv zeta. unfold initialize. cbv zeta.
  rewrite addLogEntry_motorState, addLogEntry_isConnected, addLogEntry_client,
    addLogEntry_effects.
  repeat (split; [reflexivity|]).
  split; [|apply addLogEntry_logged].
  apply displayed_addLogEntry.
  exact (updateUI_displayed (constructor page paho)).
Qed.

(** *** The speed slider *)

Lemma parseInt_toString_upto_100 (n : Z) :
  0 <= n <= 100 ->
  JsNumber.parseInt (JsNumber.toString (JsNumber.Int n)) = JsNumber.Int n.
Proof.
  intros Hn.
  assert (Hall :
            forallb
              (fun k =>
                 match JsNumber.parseInt
                         (JsNumber.toString (JsNumber.Int (Z.of_nat k))) with
                 | JsNumber.Int m => m =? Z.of_nat k
                 | _ => false
                 end)
              (seq 0 101) = true) by (vm_compute; reflexivity).
  rewrite forallb_forall in Hall.
  specialize (Hall (Z.to_nat n)).
  rewrite Z2Nat.id in Hall by lia.
  assert (Hin : In (Z.to_nat n) (seq 0 101)) by (apply in_seq; lia).
  specialize (Hall Hin).
  destruct (JsNumber.parseInt (JsNumber.toString (JsNumber.Int n)));
    try discriminate.
  apply Z.eqb_eq in Hall. subst. reflexivity.
Qed.

(** X15. The slider round trip: when the speed is an integer between 0
    and 100, the value [updateUI] writes into the slider reads back, by
    [parseInt] in the slider's listener, as that same speed, so the
    listener leaves the motor state as it is. *)
Theorem slider_round_trip (s : State) (Hspeed : speed_in_range (motorState s)) :
  JsNumber.parseInt (speedSlider_value (elements (updateUI s)))
  = speed (motorState s)
  /\ motorState
       (dispatch (Input_speedSlider (speedSlider_value (elements (updateUI s)))) s)
     = motorState s.
Proof.
  destruct Hspeed as [n [Hn Hrange]].
  assert (Hparse : JsNumber.parseInt (speedSlider_value (elements (updateUI s)))
                   = JsNumber.Int n).
  { change (speedSlider_value (elements (updateUI s)))
      with (JsNumber.toString (speed (motorState s))).
    rewrite Hn. apply parseInt_toString_upto_100, Hrange. }
  split; [rewrite Hparse, Hn; reflexivity|].
  unfold dispatch. rewrite Hparse, setSpeed_motorState.
  destruct (motorState s) as [on sp dir]. simpl in *. subst sp.
  f_equal. f_equal. lia.
Qed.

Lemma setSpeed_NaN_fields (s : State) :
  speed (motorState (setSpeed JsNumber.NaN s)) = JsNumber.NaN
  /\ isOn (motorState (setSpeed JsNumber.NaN s)) = isOn (motorState s)
  /\ direction (motorState (setSpeed JsNumber.NaN s)) = direction (motorState s).
Proof.
  rewrite setSpeed_eq. cbv zeta.
  rewrite addLogEntry_motorState, publish_if_connected_motorState.
  repeat split.
Qed.

(** X16. The clamp of [setSpeed] does not catch [NaN]: [setSpeed(NaN)]
    stores [NaN] in the speed field, the page shows ["NaN"], the log says
    ["Speed set to NaN%"], and a connected controller publishes a message
    whose [speed] member is [null]. *)
Theorem setSpeed_NaN_not_clamped (s : State) :
  let s' := setSpeed JsNumber.NaN s in
  speed (motorState s') = JsNumber.NaN
  /\ speedValue_textContent (elements s') = "NaN"%string
  /\ logged "Speed set to NaN%" s'
  /\ (forall c, client s = Some c -> isConnected s = true ->
      effects s'
      = (effects s
         ++ [ClientPublish c (motor topics)
               (JsJSON.stringify
                  (JObj [("isOn"%string, JBool (isOn (motorState s)));
                         ("speed"%string, JNull);
                         ("direction"%string, JStr (direction (motorState s)));
                         ("timestamp"%string,
                          JStr (toISOString (new_Date (dates s))))]))
               0 false])%list).
Proof.
  cbv zeta.
  split; [apply setSpeed_NaN_fields|].
  rewrite setSpeed_eq. cbv zeta.
  rewrite publish_if_connected_motorState.
  split; [|split; [apply addLogEntry_logged|]].
  2:{ intros c Hc Hconn.
      rewrite addLogEntry_effects, publish_if_connected_effects.
      unfold published. cbn [client updateUI set_motorState set_elements
                               isConnected motorState dates effects].
      rewrite Hc, Hconn. reflexivity. }
  rewrite addLogEntry_eq.
  change (speedValue_textContent
            (elements
               (publish_if_connected
                  (updateUI
                     (set_motorState
                        {| isOn := isOn (motorState s);
                           speed := JsNumber.NaN;
                           direction := direction (motorState s) |} s))))
          = "NaN"%string).
  rewrite publish_if_connected_elements. reflexivity.
Qed.

(** *** The status indicator *)

Lemma updateConnectionStatus_shows (st : string) (s : State) :
  indicates (status_text st) (st =? "connected")%string
    (updateConnectionStatus st s).
Proof.
  unfold indicates, updateConnectionStatus, status_text. cbv zeta.
  destruct (st =? "connected")%string; [split; [reflexivity | apply contains_add]|].
  destruct (st =? "connecting")%string;
    [split; [reflexivity | apply contains_remove]|].
  destruct (st =? "error")%string; split;
    first [reflexivity | apply contains_remove].
Qed.

Lemma indicator_consistent_stable : Stable indicator_consistent.
Proof.
  split; try (intros; intros s Hs; exact Hs).
  - intros message s Hs. unfold indicator_consistent.
    rewrite addLogEntry_eq. exact Hs.
  - intros st s _. unfold indicator_consistent.
    destruct (updateConnectionStatus_shows st s) as [-> ->].
    unfold status_text.
    destruct (st =? "connected")%string; [split; reflexivity|].
    destruct (st =? "connecting")%string; [split; discriminate|].
    destruct (st =? "error")%string; split; discriminate.
  - intros s Hs. unfold indicator_consistent.
    rewrite publishMotorState_elements. exact Hs.
  - intros s Hs. unfold indicator_consistent.
    rewrite subscribeToTopics_elements. exact Hs.
Qed.

(** X17. [updateConnectionStatus] shows ["Connected"], ["Connecting..."]
    or ["Connection Error"] for the three statuses it knows and
    ["Disconnected"] for any other string, and the indicator carries the
    class [connected] for the status [connected] only.  Hence, on a page
    where the status text and that class agree, they agree after every
    sequence of events. *)
Theorem status_indicator_consistent (evs : list Event) (s : State)
    (Hpage : indicator_consistent s) :
  (forall st s0,
      indicates (status_text st) (st =? "connected")%string
        (updateConnectionStatus st s0))
  /\ indicator_consistent (dispatch_all evs s).
Proof.
  split; [apply updateConnectionStatus_shows|].
  apply dispatch_all_preserves;
    [apply indicator_consistent_stable | intros s' Hs'; exact Hs' | exact Hpage].
Qed.

Lemma connectButton_stable (label : string) :
  StableConnect (fun s => connectButton_textContent (elements s) = label).
Proof.
  split.
  - intros message s Hs. rewrite addLogEntry_eq. exact Hs.
  - intros st s Hs. destruct (updateConnectionStatus_eq st s) as (cl & t & ->).
    exact Hs.
  - intros c s Hs. exact Hs.
  - intros c useSSL s Hs. exact Hs.
Qed.

(** X18. The label of the connect button is written by [updateUI] only:
    [connect()], the session callbacks and [disconnect()] leave it as it
    was.  So after the session comes up the button keeps its old label,
    although [isConnected] is now true, until a mutator refreshes the
    page. *)
Theorem connect_button_not_refreshed (s : State) :
  connectButton_textContent (elements (connect s))
  = connectButton_textContent (elements s)
  /\ connectButton_textContent (elements (connect_onSuccess s))
     = connectButton_textContent (elements s)
  /\ isConnected (connect_onSuccess s) = true
  /\ (forall errorMessage,
        connectButton_textContent (elements (connect_onFailure errorMessage s))
        = connectButton_textContent (elements s))
  /\ (forall errorMessage,
        connectButton_textContent (elements (onConnectionLost errorMessage s))
        = connectButton_textContent (elements s))
  /\ connectButton_textContent (elements (disconnect s))
     = connectButton_textContent (elements s).
Proof.
  assert (Hlog : forall message s0,
             connectButton_textContent (elements (addLogEntry message s0))
             = connectButton_textContent (elements s0)).
  { intros message s0. rewrite addLogEntry_eq. reflexivity. }
  assert (Hstatus : forall st s0,
             connectButton_textContent (elements (updateConnectionStatus st s0))
             = connectButton_textContent (elements s0)).
  { intros st s0. destruct (updateConnectionStatus_eq st s0) as (cl & t & ->).
    reflexivity. }
  split.
  { apply (connect_preserves
             (fun s' => connectButton_textContent (elements s')
                        = connectButton_textContent (elements s)));
      [apply connectButton_stable | reflexivity]. }
  split.
  { unfold connect_onSuccess. cbv zeta.
    rewrite publishMotorState_elements, subscribeToTopics_elements, Hlog, Hstatus.
    reflexivity. }
  split.
  { unfold connect_onSuccess. cbv zeta.
    rewrite publishMotorState_isConnected, subscribeToTopics_isConnected,
      addLogEntry_isConnected, updateConnectionStatus_isConnected.
    reflexivity. }
  split.
  { intros errorMessage. unfold connect_onFailure. cbv zeta.
    rewrite Hstatus, Hlog. reflexivity. }
  split.
  { intros errorMessage. unfold onConnectionLost. cbv zeta.
    rewrite Hlog, Hstatus. reflexivity. }
  unfold disconnect. cbv zeta. rewrite Hlog, Hstatus.
  destruct (client s); [destruct (isConnected s)|]; reflexivity.
Qed.

(** *** How the mutators compose *)

(** X19. The three mutators write different fields, so on the motor
    state they commute with one another; and of two [setSpeed] calls the
    later one decides the speed. *)
Theorem mutators_commute (n k : Z) (s : State) :
  motorState (toggleMotor (toggleDirection s))
  = motorState (toggleDirection (toggleMotor s))
  /\ motorState (setSpeed (JsNumber.Int n) (toggleMotor s))
     = motorState (toggleMotor (setSpeed (JsNumber.Int n) s))
  /\ motorState (setSpeed (JsNumber.Int n) (toggleDirection s))
     = motorState (toggleDirection (setSpeed (JsNumber.Int n) s))
  /\ motorState (setSpeed (JsNumber.Int n) (setSpeed (JsNumber.Int k) s))
     = motorState (setSpeed (JsNumber.Int n) s).
Proof.
  repeat rewrite ?toggleMotor_motorState, ?toggleDirection_motorState,
    ?setSpeed_motorState.
  repeat split.
Qed.

Lemma mutate_logged (op : Mutator) (s : State) :
  logged (mutator_text op (mutated op (motorState s))) (mutate op s).
Proof.
  destruct op; simpl mutate;
    [rewrite setSpeed_eq | rewrite toggleMotor_eq | rewrite toggleDirection_eq];
    cbv zeta; rewrite publish_if_connected_motorState; apply addLogEntry_logged.
Qed.

(** X20. Each mutator ends by logging the state it left: [setSpeed]
    reports the clamped speed, not the one asked for; [toggleMotor]
    reports ON or OFF as the motor now is; [toggleDirection], on a valid
    direction, reports the new direction in capitals. *)
Theorem mutators_log_new_state (n : Z) (s : State) :
  logged ("Speed set to " ++ JsNumber.toString (JsNumber.Int (Z.max 0 (Z.min 100 n)))
          ++ "%")
    (setSpeed (JsNumber.Int n) s)
  /\ logged ("Motor turned " ++ (if isOn (motorState s) then "OFF" else "ON"))
       (toggleMotor s)
  /\ (direction_valid (motorState s) ->
      logged ("Direction changed to "
              ++ (if (direction (motorState s) =? "forward")%string
                  then "REVERSE" else "FORWARD"))
        (toggleDirection s)).
Proof.
  split; [exact (mutate_logged (SetSpeed n) s)|].
  split.
  - pose proof (mutate_logged ToggleMotor s) as H. simpl in H.
    destruct (isOn (motorState s)); exact H.
  - intros Hdir. pose proof (mutate_logged ToggleDirection s) as H.
    unfold mutator_text, mutated in H. cbn [direction] in H.
    destruct Hdir as [Hd|Hd]; rewrite Hd in *; exact H.
Qed.

(** *** Blank fields *)

Lemma trimStart_space_code (w r : string) :
  JsString.is_space_code w = true ->
  JsString.trimStart (w ++ r) = JsString.trimStart r.
Proof.
  unfold JsString.is_space_code. rewrite existsb_exists.
  intros [code [Hin Heq]]. apply String.eqb_eq in Heq. subst code.
  unfold JsString.space_codes in Hin. simpl in Hin.
  repeat (destruct Hin as [<- | Hin]; [reflexivity|]).
  contradiction.
Qed.

Lemma trim_whitespace_only (a : string) :
  whitespace_only a -> JsString.trim a = ""%string.
Proof.
  intros [codes [Hcodes ->]]. unfold JsString.trim.
  assert (Hstart : JsString.trimStart (fold_right String.append EmptyString codes)
                   = ""%string).
  { induction Hcodes as [|w codes Hw _ IH]; [reflexivity|].
    simpl fold_right. rewrite (trimStart_space_code _ _ Hw). exact IH. }
  rewrite Hstart. reflexivity.
Qed.

(** X21. A field that holds only whitespace (any run of WhiteSpace and
    LineTerminator code points, the no-break space included) counts as
    missing: [connect()] then does nothing but log the matching error, the
    broker URL being checked first, so that with both fields blank only
    the URL is reported. *)
Theorem blank_fields_are_missing (s : State) :
  (whitespace_only (brokerUrl_value (elements s)) ->
   connect s = addLogEntry "Error: Please enter a broker URL" s)
  /\ (JsString.trim (brokerUrl_value (elements s)) <> ""%string ->
      whitespace_only (clientId_value (elements s)) ->
      connect s = addLogEntry "Error: Please enter a client ID" s).
Proof.
  split.
  - intros Hurl. unfold connect. rewrite (trim_whitespace_only _ Hurl). reflexivity.
  - intros Hurl Hid. unfold connect.
    rewrite (truthy_nonempty _ Hurl), (trim_whitespace_only _ Hid). reflexivity.
Qed.

End Extras.

(** ** The further properties on the reference platform *)

Section MoreRuns.

Local Existing Instance Reference.platform.

(** X1 on a day at the panel. *)
Lemma log_never_exceeds_cap_witness :
  log_within_cap Reference.start
  /\ log_within_cap (dispatch_all Scenario.session Reference.start).
Proof.
  assert (Hcap : log_within_cap Reference.start)
    by (unfold log_within_cap; apply Nat.leb_le; vm_compute; reflexivity).
  split; [exact Hcap|].
  exact (log_never_exceeds_cap Scenario.session Reference.start Hcap).
Defined.

(** X2 on a page that ships with sixty lines. *)
Lemma addLogEntry_full_keeps_length_witness :
  (50 <= List.length (statusLog (elements Scenario.crowded)))%nat
  /\ List.length (statusLog (elements (addLogEntry "note" Scenario.crowded)))
     = List.length (statusLog (elements Scenario.crowded)).
Proof.
  assert (Hfull : (50 <= List.length (statusLog (elements Scenario.crowded)))%nat)
    by (apply Nat.leb_le; vm_compute; reflexivity).
  split; [exact Hfull|].
  exact (proj2 (addLogEntry_full_keeps_length "note" Scenario.crowded Hfull)).
Defined.

(** X4 on a press of the power button while connected. *)
Lemma only_success_sets_isConnected_witness :
  Click_powerButton <> Connect_succeeded
  /\ isConnected (dispatch Click_powerButton Reference.connected) = true
  /\ isConnected Reference.connected = true.
Proof.
  assert (Hev : Click_powerButton <> Connect_succeeded) by discriminate.
  assert (Hafter : isConnected (dispatch Click_powerButton Reference.connected) = true)
    by (vm_compute; reflexivity).
  split; [exact Hev|]. split; [exact Hafter|].
  exact (only_success_sets_isConnected Click_powerButton Reference.connected
           Hev Hafter).
Defined.

(** X7 on a [wss] address without a port, typed with no-break spaces
    around it: TLS, port 8884, and the spaces are gone. *)
Lemma connect_opens_session_witness :
  client (connect Scenario.padded)
  = Some {| client_host := "broker.example";
            client_port := JsNumber.Int 8884;
            client_id := "panel" |}
  /\ effects (connect Scenario.padded)
     = (effects Scenario.padded
        ++ [Status "connecting";
            ClientConnect
              {| client_host := "broker.example";
                 client_port := JsNumber.Int 8884;
                 client_id := "panel" |}
              true 10 60 true])%list.
Proof.
  assert (H := connect_opens_session Scenario.padded
                 {| hostname := "broker.example"; port := "" |} 8884 true).
  cbv zeta in H.
  assert (Hpaho : Paho_defined Scenario.padded = true) by (vm_compute; reflexivity).
  assert (Hurl : JsString.trim (brokerUrl_value (elements Scenario.padded))
                 <> ""%string) by (vm_compute; discriminate).
  assert (Hid : JsString.trim (clientId_value (elements Scenario.padded))
                <> ""%string) by (vm_compute; discriminate).
  assert (Hscheme : scheme_defaults
                      (JsString.trim (brokerUrl_value (elements Scenario.padded)))
                    = Some (8884, true)) by (vm_compute; reflexivity).
  assert (Hu : new_URL (JsString.trim (brokerUrl_value (elements Scenario.padded)))
               = inr {| hostname := "broker.example"; port := "" |})
    by (vm_compute; reflexivity).
  specialize (H Hpaho Hurl Hid Hscheme Hu).
  assert (Hport : JsNumber.or_else (JsNumber.parseInt "") (JsNumber.Int 8884)
                  = JsNumber.Int 8884) by (vm_compute; reflexivity).
  assert (Hclient : JsString.trim (clientId_value (elements Scenario.padded))
                    = "panel"%string) by (vm_compute; reflexivity).
  cbn [hostname port client_host client_port] in H.
  rewrite Hport, Hclient in H.
  destruct (H eq_refl eq_refl) as (Hc & He & _).
  split; [exact Hc | exact He].
Defined.

(** X11 on an echo of the controller's own publication. *)
Lemma incoming_message_only_logs_witness :
  handleIncomingMessage "akuri/motor/control"
    (JsJSON.stringify (motor_message initial_motorState "1970-01-01T00:00:03.000Z"))
    Reference.connected
  = addLogEntry
      ("Received on akuri/motor/control: "
       ++ JsJSON.stringify
            (motor_message initial_motorState "1970-01-01T00:00:03.000Z"))
      Reference.connected.
Proof.
  exact (proj2 (proj2 (proj2 (proj2 (proj2
           (incoming_message_only_logs "akuri/motor/control"
              (JsJSON.stringify
                 (motor_message initial_motorState "1970-01-01T00:00:03.000Z"))
              Reference.connected)))))
           eq_refl eq_refl).
Defined.

(** X12 on a status report. *)
Lemma incoming_message_routing_witness :
  logged "Status update: running"
    (handleIncomingMessage "akuri/motor/status"
       (JsJSON.stringify (JObj [("message"%string, JStr "running")]))
       Reference.connected).
Proof.
  assert (Hparse :
            JSON_parse (JsJSON.stringify (JObj [("message"%string, JStr "running")]))
            = Some (Reference.DObj [("message"%string, Reference.DStr "running")]))
    by (vm_compute; reflexivity).
  exact (incoming_message_routing "akuri/motor/status"
           (JsJSON.stringify (JObj [("message"%string, JStr "running")]))
           Reference.connected _ Hparse (or_introl eq_refl)).
Defined.

(** X15 on the fresh panel. *)
Lemma slider_round_trip_witness :
  speed_in_range (motorState Reference.start)
  /\ JsNumber.parseInt (speedSlider_value (elements (updateUI Reference.start)))
     = speed (motorState Reference.start).
Proof.
  assert (Hspeed : speed_in_range (motorState Reference.start)).
  { exists 0. split; [reflexivity | lia]. }
  split; [exact Hspeed|].
  exact (proj1 (slider_round_trip Reference.start Hspeed)).
Defined.

(** X16 with a session up: the broker is sent [null] for the speed. *)
Lemma setSpeed_NaN_not_clamped_witness :
  client Reference.connected
  = Some {| client_host := "broker.example";
            client_port := JsNumber.Int 9001;
            client_id := "panel" |}
  /\ isConnected Reference.connected = true
  /\ effects (setSpeed JsNumber.NaN Reference.connected)
     = (effects Reference.connected
        ++ [ClientPublish
              {| client_host := "broker.example";
                 client_port := JsNumber.Int 9001;
                 client_id := "panel" |}
              (motor topics)
              (JsJSON.stringify
                 (JObj [("isOn"%string, JBool false);
                        ("speed"%string, JNull);
                        ("direction"%string, JStr "forward");
                        ("timestamp"%string, JStr "1970-01-01T00:00:04.000Z")]))
              0 false])%list.
Proof.
  assert (Hc : client Reference.connected
               = Some {| client_host := "broker.example";
                         client_port := JsNumber.Int 9001;
                         client_id := "panel" |}) by (vm_compute; reflexivity).
  assert (Hconn : isConnected Reference.connected = true)
    by (vm_compute; reflexivity).
  split; [exact Hc|]. split; [exact Hconn|].
  exact (proj2 (proj2 (proj2 (setSpeed_NaN_not_clamped Reference.connected)))
           _ Hc Hconn).
Defined.

(** X17 on a day at the panel. *)
Lemma status_indicator_consistent_witness :
  indicator_consistent Reference.start
  /\ indicator_consistent (dispatch_all Scenario.session Reference.start).
Proof.
  assert (Hpage : indicator_consistent Reference.start)
    by (split; vm_compute; discriminate).
  split; [exact Hpage|].
  exact (proj2 (status_indicator_consistent Scenario.session Reference.start Hpage)).
Defined.

(** X20 on the fresh panel. *)
Lemma mutators_log_new_state_witness :
  direction_valid (motorState Reference.start)
  /\ logged "Direction changed to REVERSE" (toggleDirection Reference.start).
Proof.
  assert (Hdir : direction_valid (motorState Reference.start))
    by (left; reflexivity).
  split; [exact Hdir|].
  exact (proj2 (proj2 (mutators_log_new_state 0 Reference.start)) Hdir).
Defined.

(** X21 on two blank fields, one with a no-break space: only the URL is
    reported. *)
Lemma blank_fields_are_missing_witness :
  whitespace_only (brokerUrl_value (elements Scenario.blank))
  /\ connect Scenario.blank
     = addLogEntry "Error: Please enter a broker URL" Scenario.blank.
Proof.
  assert (Hurl : whitespace_only (brokerUrl_value (elements Scenario.blank))).
  { exists [" "%string; JsString.utf8 160; JsString.utf8 12288].
    split; [repeat constructor | vm_compute; reflexivity]. }
  split; [exact Hurl|].
  exact (proj1 (blank_fields_are_missing Scenario.blank) Hurl).
Defined.

End MoreRuns.
